(** * securesystemslib/interface.py: key files on disk

    A shallow embedding of [securesystemslib/interface.py]: the prompts
    [_prompt] and [_get_password], the three [generate_and_write_*_keypair]
    functions, the three [import_*_privatekey_from_file] functions and the
    three [import_*_publickey_from_file] functions, followed by the
    properties of the specification that concern them and by further
    properties of the code.

    Python [str] values are [string]s; the contents of a file are the bytes
    produced by [.encode('utf-8')].  The functions of the modules
    [securesystemslib.formats], [securesystemslib.keys] and
    [securesystemslib.settings], which are not part of [interface.py], are
    gathered in the record [Externals]; the file system, the terminal and the
    log are the fields of [World]. *)

From Stdlib Require Import String Ascii ZArith Lia Bool List.
From stdpp Require Import gmap strings.
Import ListNotations.
Local Open Scope string_scope.

(** ** Data model *)

(** The dict under ['keyval']: ['public'] is always there, ['private'] is
    optional. *)
Record KeyVal := mkKeyVal {
  public : string;
  private : option string
}.

(** A key object as returned by [securesystemslib.keys]. *)
Record Key := mkKey {
  keytype : string;
  scheme : string;
  keyid : string;
  keyval : KeyVal;
  keyid_hash_algorithms : option (list string)
}.

(** The exceptions that reach the caller. *)
Inductive exn :=
| FormatError (msg : string)
| CryptoError (msg : string)
| Error (msg : string)
| KeyError (key : string)
| ValueError (msg : string)
| UnicodeDecodeError (msg : string)
| IOError (msg : string)
| EOFError.

(** What a call into another module gives back: a value or an exception. *)
Inductive result (A : Type) :=
| Ok (a : A)
| Err (e : exn).
Arguments Ok {A} a.
Arguments Err {A} e.

(** A JSON value, as handed to [json.dumps]. *)
#[local] Set Warnings "-register-all".
Inductive json :=
| JStr (s : string)
| JList (l : list json)
| JObj (fields : list (string * json)).
#[local] Set Warnings "register-all".

(** ** The outside world *)

(** What a run does that an observer can see, in the order it happens. *)
Inductive Event :=
| EvGetpass (prompt : string)
| EvInput (message : string)
| EvPrint (line : string)
| EvDebug (msg : string)
| EvCreateRsaEncryptedPem (priv password : string)
| EvImportRsaPrivatePem (pem sch : string) (password : option string)
| EvEncryptKey (key : Key) (password : string)
| EvDecryptKey (encrypted password : string)
| EvEnsureParentDir (path : string)
| EvTempFile (handle : nat)
| EvWrite (handle : nat) (data : string)
| EvMove (handle : nat) (dest : string)
| EvOpen (path : string)
| EvLoadJson (path : string).

(** [files] maps a path to the contents found there; [temps] holds the
    temporary files that are still open, by handle; [stdin n] is the [n]-th
    line the terminal will supply ([None] once it is closed) and [stdin_pos]
    counts the lines already read; [fault] is the number of file-system
    operations that still succeed before one fails ([None]: none fails). *)
Record World := mkWorld {
  cwd : string;
  files : gmap string string;
  dirs : gset string;
  temps : gmap nat string;
  next_temp : nat;
  stdin : nat -> option string;
  stdin_pos : nat;
  trace : list Event;
  fault : option nat
}.

Definition emit (ev : Event) (w : World) : World :=
  mkWorld (cwd w) (files w) (dirs w) (temps w) (next_temp w)
          (stdin w) (stdin_pos w) (trace w ++ [ev]) (fault w).

Definition set_fault (f : option nat) (w : World) : World :=
  mkWorld (cwd w) (files w) (dirs w) (temps w) (next_temp w)
          (stdin w) (stdin_pos w) (trace w) f.

Definition set_files (fs : gmap string string) (w : World) : World :=
  mkWorld (cwd w) fs (dirs w) (temps w) (next_temp w)
          (stdin w) (stdin_pos w) (trace w) (fault w).

Definition set_dirs (ds : gset string) (w : World) : World :=
  mkWorld (cwd w) (files w) ds (temps w) (next_temp w)
          (stdin w) (stdin_pos w) (trace w) (fault w).

Definition set_temps (ts : gmap nat string) (n : nat) (w : World) : World :=
  mkWorld (cwd w) (files w) (dirs w) ts n
          (stdin w) (stdin_pos w) (trace w) (fault w).

Definition advance_stdin (w : World) : World :=
  mkWorld (cwd w) (files w) (dirs w) (temps w) (next_temp w)
          (stdin w) (S (stdin_pos w)) (trace w) (fault w).

(** ** The monad of effects *)

(** A computation ends with a value, with an exception, or has not ended
    when its fuel is used up. *)
Inductive Outcome (A : Type) :=
| Ret (a : A)
| Raise (e : exn)
| Diverge.
Arguments Ret {A} a.
Arguments Raise {A} e.
Arguments Diverge {A}.

Definition M (A : Type) : Type := World -> Outcome A * World.

Definition ret {A} (a : A) : M A := fun w => (Ret a, w).

Definition raise {A} (e : exn) : M A := fun w => (Raise e, w).

Definition diverge {A} : M A := fun w => (Diverge, w).

Definition bind {A B} (m : M A) (k : A -> M B) : M B :=
  fun w =>
    match m w with
    | (Ret a, w') => k a w'
    | (Raise e, w') => (Raise e, w')
    | (Diverge, w') => (Diverge, w')
    end.

Declare Scope py_scope.
Delimit Scope py_scope with py.
Notation "x <~ m ;; k" := (bind m (fun x => k))
  (at level 100, m at next level, right associativity) : py_scope.
Notation "m >> k" := (bind m (fun _ => k))
  (at level 100, right associativity) : py_scope.
Local Open Scope py_scope.

(** A call that may raise. *)
Definition lift {A} (r : result A) : M A :=
  match r with
  | Ok a => ret a
  | Err e => raise e
  end.

Definition log (ev : Event) : M unit := fun w => (Ret tt, emit ev w).

(** [logger.debug(msg)] *)
Definition logger_debug (msg : string) : M unit := log (EvDebug msg).

(** [print(line)] *)
Definition print (line : string) : M unit := log (EvPrint line).

(** Every file-system operation starts here: it fails when the fault
    counter has reached zero. *)
Definition tick : M unit :=
  fun w =>
    match fault w with
    | None => (Ret tt, w)
    | Some 0 => (Raise (IOError "injected file-system failure"), w)
    | Some (S n) => (Ret tt, set_fault (Some n) w)
    end.

(** [getpass.getpass(prompt, sys.stderr)]: shows [prompt], reads one line
    without echo, [EOFError] when the terminal is closed. *)
Definition getpass (prompt : string) : M string :=
  fun w =>
    match stdin w (stdin_pos w) with
    | Some line => (Ret line, advance_stdin (emit (EvGetpass prompt) w))
    | None => (Raise EOFError, emit (EvGetpass prompt) w)
    end.

(** [six.moves.input(message)]: shows [message] and reads one line. *)
Definition input_ (message : string) : M string :=
  fun w =>
    match stdin w (stdin_pos w) with
    | Some line => (Ret line, advance_stdin (emit (EvInput message) w))
    | None => (Raise EOFError, emit (EvInput message) w)
    end.

(** [os.getcwd()] *)
Definition os_getcwd : M string := fun w => (Ret (cwd w), w).

(** [open(path, 'rb')] followed by [read()]. *)
Definition open_read (path : string) : M string :=
  tick >>
  fun w =>
    match files w !! path with
    | Some contents => (Ret contents, emit (EvOpen path) w)
    | None => (Raise (IOError ("No such file or directory: " ++ path)), w)
    end.

(** ** Paths (posixpath) *)

Definition sep : ascii := "/"%char.

Fixpoint has_sep (p : string) : bool :=
  match p with
  | EmptyString => false
  | String c p' => Ascii.eqb c sep || has_sep p'
  end.

(** [os.path.basename(p)]: what follows the last ['/']. *)
Fixpoint os_path_basename (p : string) : string :=
  match p with
  | EmptyString => EmptyString
  | String c p' =>
      if has_sep p' then os_path_basename p'
      else if Ascii.eqb c sep then p' else p
  end.

Definition startswith_sep (p : string) : bool :=
  match p with
  | String c _ => Ascii.eqb c sep
  | EmptyString => false
  end.

Fixpoint endswith_sep (p : string) : bool :=
  match p with
  | EmptyString => false
  | String c EmptyString => Ascii.eqb c sep
  | String _ p' => endswith_sep p'
  end.

(** [os.path.join(a, b)] *)
Definition os_path_join (a b : string) : string :=
  if startswith_sep b then b
  else if (String.length a =? 0)%nat || endswith_sep a then a ++ b
  else a ++ String sep b.

(** The directory part of [p]: up to the last ['/'], without trailing
    ['/'] unless it consists of them only. *)
Fixpoint head_part (p : string) : string :=
  match p with
  | EmptyString => EmptyString
  | String c p' => if has_sep p then String c (head_part p') else EmptyString
  end.

Fixpoint all_sep (p : string) : bool :=
  match p with
  | EmptyString => true
  | String c p' => Ascii.eqb c sep && all_sep p'
  end.

Fixpoint rstrip_sep (p : string) : string :=
  match p with
  | EmptyString => EmptyString
  | String c p' => if all_sep p then EmptyString else String c (rstrip_sep p')
  end.

Definition os_path_dirname (p : string) : string :=
  let head := head_part p in
  if all_sep head then head else rstrip_sep head.

(** ** colorama *)

Definition ESC : ascii := ascii_of_nat 27.
Definition Fore_RED : string := String ESC "[31m".
Definition Fore_RESET : string := String ESC "[39m".

(** ** The other modules of securesystemslib

    [interface.py] calls into [securesystemslib.formats] (the schemas),
    [securesystemslib.keys] (generation, encryption, decryption, PEM import,
    metadata conversion), [securesystemslib.settings],
    [securesystemslib.util] and the Python library ([json.dumps], [repr],
    [str.encode], [bytes.decode]).  Key generation draws on the system's
    entropy: one [Externals] value fixes the keys a run obtains.
    [load_json_file] reads the file system without changing it: it is a
    function of the files and of the path. *)
Record Externals := mkExternals {
  RSAKEYBITS_SCHEMA_check_match : Z -> result unit;
  PATH_SCHEMA_check_match : string -> result unit;
  PASSWORD_SCHEMA_check_match : string -> result unit;
  RSA_SCHEME_SCHEMA_check_match : string -> result unit;
  generate_rsa_key : Z -> result Key;
  generate_ed25519_key : result Key;
  generate_ecdsa_key : result Key;
  create_rsa_encrypted_pem : string -> string -> result string;
  import_rsakey_from_private_pem :
    string -> string -> option string -> result Key;
  encrypt_key : Key -> string -> result string;
  decrypt_key : string -> string -> result Key;
  HASH_ALGORITHMS : list string;
  json_dumps : json -> string;
  repr : string -> string;
  encode_utf8 : string -> string;
  decode_utf8 : string -> result string;
  import_rsakey_from_public_pem : string -> result Key;
  load_json_file : gmap string string -> string -> result json;
  format_metadata_to_key : json -> result (Key * list string)
}.

(** Modelled from the spec: [securesystemslib.keys.format_keyval_to_metadata]
    is not in [interface.py].  The spec describes the envelope it builds for
    a public artifact as [{keytype, scheme, keyval: {public}}], with no
    [keyid] and no private field; that is the [private=False] case, the only
    one [interface.py] asks for.  With [private=True] the whole [keyval] is
    kept, and a [keyval] without a private part is refused. *)
Definition format_keyval_to_metadata
    (kt sch : string) (kv : KeyVal) (with_private : bool) : result json :=
  if with_private then
    match private kv with
    | Some priv =>
        Ok (JObj [("keytype", JStr kt); ("scheme", JStr sch);
                  ("keyval", JObj [("public", JStr (public kv));
                                   ("private", JStr priv)])])
    | None => Err (FormatError "The required private key is missing")
    end
  else
    Ok (JObj [("keytype", JStr kt); ("scheme", JStr sch);
              ("keyval", JObj [("public", JStr (public kv))])]).

(** Modelled from the spec: [securesystemslib.util.ensure_parent_dir] is not
    in [interface.py].  The parent directory of the path is created when it
    is missing, creating one that exists is no error, and no file is
    touched. *)
Definition ensure_parent_dir (path : string) : M unit :=
  tick >>
  fun w =>
    let d := os_path_dirname path in
    (Ret tt,
     emit (EvEnsureParentDir path)
          (set_dirs (if (String.length d =? 0)%nat then dirs w
                     else {[ d ]} ∪ dirs w) w)).

(** Modelled from the spec: [securesystemslib.util.TempFile] is not in
    [interface.py].  The spec describes a write as "scoped acquisition of a
    temporary file, write full contents, then rename into the final path":
    [TempFile()] opens a fresh, empty temporary file; [write] appends to it
    and touches nothing else; [move] renames it into the final path in one
    step and closes it. *)
Definition TempFile : M nat :=
  tick >>
  fun w =>
    let h := next_temp w in
    (Ret h, emit (EvTempFile h) (set_temps (<[h := ""]> (temps w)) (S h) w)).

Definition TempFile_write (h : nat) (data : string) : M unit :=
  tick >>
  fun w =>
    match temps w !! h with
    | Some old =>
        (Ret tt,
         emit (EvWrite h data)
              (set_temps (<[h := old ++ data]> (temps w)) (next_temp w) w))
    | None => (Raise (ValueError "I/O operation on closed file"), w)
    end.

Definition TempFile_move (h : nat) (dest : string) : M unit :=
  tick >>
  fun w =>
    match temps w !! h with
    | Some contents =>
        (Ret tt,
         emit (EvMove h dest)
              (set_temps (delete h (temps w)) (next_temp w)
                         (set_files (<[dest := contents]> (files w)) w)))
    | None => (Raise (ValueError "I/O operation on closed file"), w)
    end.

(** ** interface.py *)

Definition DEFAULT_RSA_KEY_BITS : Z := 3072.

Definition SUPPORTED_KEY_TYPES : list string := ["rsa"; "ed25519"].

(** [not filepath]: [None] and the empty string are both false. *)
Definition not_ (filepath : option string) : bool :=
  match filepath with
  | None => true
  | Some p => (String.length p =? 0)%nat
  end.

(** [_prompt(message, result_type)]: [result_type] converts the line read,
    and may raise. *)
Definition _prompt {A} (message : string) (result_type : string -> result A)
    : M A :=
  line <~ input_ message ;;
  lift (result_type line).

(** [_get_password(prompt, confirm)].  The [while True] loop runs once per
    unit of [fuel]. *)
Fixpoint _get_password (fuel : nat) (prompt : string) (confirm : bool)
    : M string :=
  match fuel with
  | O => diverge
  | S fuel' =>
      password <~ getpass prompt ;;
      if negb confirm then ret password
      else
        password2 <~ getpass "Confirm: " ;;
        if String.eqb password password2 then ret password
        else
          print "Mismatch; try again." >>
          _get_password fuel' prompt confirm
  end.

Section Interface.

Variable E : Externals.

(** [rsa_key['keyval']['private']] *)
Definition keyval_private (k : Key) : M string :=
  match private (keyval k) with
  | Some priv => ret priv
  | None => raise (KeyError "private")
  end.

(** [key_object['keyid_hash_algorithms'] = algorithms] *)
Definition set_keyid_hash_algorithms (k : Key) (algorithms : list string)
    : Key :=
  mkKey (keytype k) (scheme k) (keyid k) (keyval k) (Some algorithms).

Definition generate_and_write_rsa_keypair
    (fuel : nat) (filepath : option string) (bits : Z)
    (password : option string) : M string :=
  lift (RSAKEYBITS_SCHEMA_check_match E bits) >>
  rsa_key <~ lift (generate_rsa_key E bits) ;;
  let public_ := public (keyval rsa_key) in
  private_ <~ keyval_private rsa_key ;;
  filepath <~ (if not_ filepath then
                 d <~ os_getcwd ;;
                 ret (os_path_join d (keyid rsa_key))
               else
                 logger_debug ("The filepath has been specified.  Not using the key's"
                               ++ " KEYID as the default filepath.") >>
                 ret (default "" filepath)) ;;
  lift (PATH_SCHEMA_check_match E filepath) >>
  password <~ match password with
              | None =>
                  let relative_path := os_path_basename filepath in
                  _get_password fuel
                    ("Enter a password for the encrypted RSA"
                     ++ " key (" ++ Fore_RED ++ relative_path ++ Fore_RESET
                     ++ "): ")
                    false
              | Some password =>
                  logger_debug "The password has been specified.  Not prompting for one" >>
                  ret password
              end ;;
  lift (PASSWORD_SCHEMA_check_match E password) >>
  private_ <~ (if negb (String.length password =? 0)%nat then
                 log (EvCreateRsaEncryptedPem private_ password) >>
                 lift (create_rsa_encrypted_pem E private_ password)
               else
                 logger_debug "An empty password was given.  Not encrypting the private key." >>
                 ret private_) ;;
  ensure_parent_dir filepath >>
  file_object <~ TempFile ;;
  TempFile_write file_object (encode_utf8 E public_) >>
  TempFile_move file_object (filepath ++ ".pub") >>
  file_object <~ TempFile ;;
  TempFile_write file_object (encode_utf8 E private_) >>
  TempFile_move file_object filepath >>
  ret filepath.

Definition import_rsa_privatekey_from_file
    (fuel : nat) (filepath : string) (password : option string)
    (sch : string) : M Key :=
  lift (PATH_SCHEMA_check_match E filepath) >>
  lift (RSA_SCHEME_SCHEMA_check_match E sch) >>
  password <~ match password with
              | None =>
                  let relative_path := os_path_basename filepath in
                  _get_password fuel
                    ("Enter a password for the encrypted RSA"
                     ++ " file (" ++ Fore_RED ++ relative_path ++ Fore_RESET
                     ++ "): ")
                    false
              | Some password => ret password
              end ;;
  lift (PASSWORD_SCHEMA_check_match E password) >>
  contents <~ open_read filepath ;;
  pem <~ lift (decode_utf8 E contents) ;;
  rsa_key <~ (if negb (String.length password =? 0)%nat then
                log (EvImportRsaPrivatePem pem sch (Some password)) >>
                lift (import_rsakey_from_private_pem E pem sch (Some password))
              else
                logger_debug ("An empty password was given.  Attempting to import an"
                              ++ " unencrypted file.") >>
                log (EvImportRsaPrivatePem pem sch None) >>
                lift (import_rsakey_from_private_pem E pem sch None)) ;;
  ret rsa_key.

(** [securesystemslib.util.load_json_file(filepath)] *)
Definition util_load_json_file (filepath : string) : M json :=
  fun w =>
    match load_json_file E (files w) filepath with
    | Ok j => (Ret j, emit (EvLoadJson filepath) w)
    | Err e => (Raise e, emit (EvLoadJson filepath) w)
    end.

Definition import_rsa_publickey_from_file (filepath : string) : M Key :=
  lift (PATH_SCHEMA_check_match E filepath) >>
  contents <~ open_read filepath ;;
  rsa_pubkey_pem <~ lift (decode_utf8 E contents) ;;
  rsakey_dict <~
    match import_rsakey_from_public_pem E rsa_pubkey_pem with
    | Ok k => ret k
    | Err (FormatError e) =>
        raise (Error ("Cannot import improperly formatted"
                      ++ " PEM file." ++ repr E e))
    | Err e => raise e
    end ;;
  ret rsakey_dict.

Definition generate_and_write_ed25519_keypair
    (fuel : nat) (filepath : option string) (password : option string)
    : M string :=
  ed25519_key <~ lift (generate_ed25519_key E) ;;
  filepath <~ (if not_ filepath then
                 d <~ os_getcwd ;;
                 ret (os_path_join d (keyid ed25519_key))
               else
                 logger_debug ("The filepath has been specified.  Not using the key's"
                               ++ " KEYID as the default filepath.") >>
                 ret (default "" filepath)) ;;
  lift (PATH_SCHEMA_check_match E filepath) >>
  password <~ match password with
              | None =>
                  let relative_path := os_path_basename filepath in
                  _get_password fuel
                    ("Enter a password for the Ed25519"
                     ++ " key (" ++ Fore_RED ++ relative_path ++ Fore_RESET
                     ++ "): ")
                    false
              | Some password =>
                  logger_debug "The password has been specified.  Not prompting for one" >>
                  ret password
              end ;;
  lift (PASSWORD_SCHEMA_check_match E password) >>
  ensure_parent_dir filepath >>
  file_object <~ TempFile ;;
  let keytype_ := keytype ed25519_key in
  let keyval_ := keyval ed25519_key in
  let scheme_ := scheme ed25519_key in
  ed25519key_metadata_format <~
    lift (format_keyval_to_metadata keytype_ scheme_ keyval_ false) ;;
  TempFile_write file_object
    (encode_utf8 E (json_dumps E ed25519key_metadata_format)) >>
  TempFile_move file_object (filepath ++ ".pub") >>
  file_object <~ TempFile ;;
  log (EvEncryptKey ed25519_key password) >>
  encrypted_key <~ lift (encrypt_key E ed25519_key password) ;;
  TempFile_write file_object (encode_utf8 E encrypted_key) >>
  TempFile_move file_object filepath >>
  ret filepath.

Definition import_ed25519_publickey_from_file (filepath : string) : M Key :=
  lift (PATH_SCHEMA_check_match E filepath) >>
  ed25519_key_metadata <~ util_load_json_file filepath ;;
  pair_ <~ lift (format_metadata_to_key E ed25519_key_metadata) ;;
  let ed25519_key := fst pair_ in
  if negb (String.eqb (keytype ed25519_key) "ed25519") then
    let message := "Invalid key type loaded: " ++ repr E (keytype ed25519_key) in
    raise (FormatError message)
  else
    ret ed25519_key.

Definition import_ed25519_privatekey_from_file
    (fuel : nat) (filepath : string) (password : option string) : M Key :=
  lift (PATH_SCHEMA_check_match E filepath) >>
  password <~ match password with
              | None =>
                  let relative_path := os_path_basename filepath in
                  _get_password fuel
                    ("Enter a password for the encrypted Ed25519"
                     ++ " key (" ++ Fore_RED ++ relative_path ++ Fore_RESET
                     ++ "): ")
                    false
              | Some password => ret password
              end ;;
  lift (PASSWORD_SCHEMA_check_match E password) >>
  encrypted_key <~ open_read filepath ;;
  encrypted_text <~ lift (decode_utf8 E encrypted_key) ;;
  log (EvDecryptKey encrypted_text password) >>
  key_object <~ lift (decrypt_key E encrypted_text password) ;;
  if negb (String.eqb (keytype key_object) "ed25519") then
    let message := "Invalid key type loaded: " ++ repr E (keytype key_object) in
    raise (FormatError message)
  else
    ret (set_keyid_hash_algorithms key_object (HASH_ALGORITHMS E)).

Definition generate_and_write_ecdsa_keypair
    (fuel : nat) (filepath : option string) (password : option string)
    : M string :=
  ecdsa_key <~ lift (generate_ecdsa_key E) ;;
  filepath <~ (if not_ filepath then
                 d <~ os_getcwd ;;
                 ret (os_path_join d (keyid ecdsa_key))
               else
                 logger_debug ("The filepath has been specified.  Not using the key's"
                               ++ " KEYID as the default filepath.") >>
                 ret (default "" filepath)) ;;
  lift (PATH_SCHEMA_check_match E filepath) >>
  password <~ match password with
              | None =>
                  let relative_path := os_path_basename filepath in
                  _get_password fuel
                    ("Enter a password for the ECDSA"
                     ++ " key (" ++ Fore_RED ++ relative_path ++ Fore_RESET
                     ++ "): ")
                    false
              | Some password =>
                  logger_debug "The password has been specified.  Not prompting for one" >>
                  ret password
              end ;;
  lift (PASSWORD_SCHEMA_check_match E password) >>
  ensure_parent_dir filepath >>
  file_object <~ TempFile ;;
  let keytype_ := keytype ecdsa_key in
  let keyval_ := keyval ecdsa_key in
  let scheme_ := scheme ecdsa_key in
  ecdsakey_metadata_format <~
    lift (format_keyval_to_metadata keytype_ scheme_ keyval_ false) ;;
  TempFile_write file_object
    (encode_utf8 E (json_dumps E ecdsakey_metadata_format)) >>
  TempFile_move file_object (filepath ++ ".pub") >>
  file_object <~ TempFile ;;
  log (EvEncryptKey ecdsa_key password) >>
  encrypted_key <~ lift (encrypt_key E ecdsa_key password) ;;
  TempFile_write file_object (encode_utf8 E encrypted_key) >>
  TempFile_move file_object filepath >>
  ret filepath.

Definition import_ecdsa_publickey_from_file (filepath : string) : M Key :=
  lift (PATH_SCHEMA_check_match E filepath) >>
  ecdsa_key_metadata <~ util_load_json_file filepath ;;
  pair_ <~ lift (format_metadata_to_key E ecdsa_key_metadata) ;;
  let ecdsa_key := fst pair_ in
  if negb (String.eqb (keytype ecdsa_key) "ecdsa-sha2-nistp256") then
    let message := "Invalid key type loaded: " ++ repr E (keytype ecdsa_key) in
    raise (FormatError message)
  else
    ret ecdsa_key.

Definition import_ecdsa_privatekey_from_file
    (fuel : nat) (filepath : string) (password : option string) : M Key :=
  lift (PATH_SCHEMA_check_match E filepath) >>
  password <~ match password with
              | None =>
                  let relative_path := os_path_basename filepath in
                  _get_password fuel
                    ("Enter a password for the encrypted ECDSA"
                     ++ " key (" ++ Fore_RED ++ relative_path ++ Fore_RESET
                     ++ "): ")
                    false
              | Some password => ret password
              end ;;
  lift (PASSWORD_SCHEMA_check_match E password) >>
  encrypted_key <~ open_read filepath ;;
  encrypted_text <~ lift (decode_utf8 E encrypted_key) ;;
  log (EvDecryptKey encrypted_text password) >>
  key_object <~ lift (decrypt_key E encrypted_text password) ;;
  if negb (String.eqb (keytype key_object) "ecdsa-sha2-nistp256") then
    let message := "Invalid key type loaded: " ++ repr E (keytype key_object) in
    raise (FormatError message)
  else
    ret (set_keyid_hash_algorithms key_object (HASH_ALGORITHMS E)).

End Interface.

(** ** A toy instance, to run the functions on concrete inputs *)

Module Toy.

Definition key (kt : string) : Key :=
  mkKey kt "toy-scheme" "1a2b3c" (mkKeyVal "PUBLIC" (Some "PRIVATE")) None.

Definition public_key (kt : string) : Key :=
  mkKey kt "toy-scheme" "1a2b3c" (mkKeyVal "PUBLIC" None) None.

(** The toy PEM import gives an RSA key whose private part is the PEM. *)
Definition rsa_key (pem : string) : Key :=
  mkKey "rsa" "toy-scheme" "1a2b3c" (mkKeyVal "PUBLIC" (Some pem)) None.

Definition encrypt (k : Key) (password : string) : result string :=
  match private (keyval k) with
  | Some priv => Ok ("enc<" ++ password ++ ">" ++ keytype k)
  | None => Err (FormatError "no private key")
  end.

(** The toy decryption reads the key type off what follows the ['>']. *)
Fixpoint after_gt (s : string) : string :=
  match s with
  | EmptyString => EmptyString
  | String c s' => if Ascii.eqb c ">"%char then s' else after_gt s'
  end.

Definition decrypt (encrypted password : string) : result Key :=
  if String.prefix ("enc<" ++ password ++ ">") encrypted
  then Ok (key (after_gt encrypted))
  else Err (CryptoError "Decryption failed.").

Definition quote : string := String (ascii_of_nat 34) EmptyString.

Definition fields_dumps (dumps : json -> string)
    : list (string * json) -> string :=
  fix go (l : list (string * json)) : string :=
    match l with
    | [] => EmptyString
    | [(k, v)] => quote ++ k ++ quote ++ ": " ++ dumps v
    | (k, v) :: l' => quote ++ k ++ quote ++ ": " ++ dumps v ++ ", " ++ go l'
    end.

Fixpoint dumps (j : json) : string :=
  match j with
  | JStr s => quote ++ s ++ quote
  | JList l => "[" ++ String.concat ", " (map dumps l) ++ "]"
  | JObj fields => "{" ++ fields_dumps dumps fields ++ "}"
  end.

(** The envelope of a toy public key of type [kt]. *)
Definition envelope (kt : string) : json :=
  JObj [("keytype", JStr kt); ("scheme", JStr "toy-scheme");
        ("keyval", JObj [("public", JStr "PUBLIC")])].

(** The toy JSON reader knows the envelopes of three key types. *)
Definition loads (contents : string) : result json :=
  if String.eqb contents (dumps (envelope "ed25519"))
  then Ok (envelope "ed25519")
  else if String.eqb contents (dumps (envelope "ecdsa-sha2-nistp256"))
  then Ok (envelope "ecdsa-sha2-nistp256")
  else if String.eqb contents (dumps (envelope "rsa"))
  then Ok (envelope "rsa")
  else Err (Error "Cannot deserialize to a Python object").

Definition load (fs : gmap string string) (path : string) : result json :=
  match fs !! path with
  | Some contents => loads contents
  | None => Err (IOError ("No such file or directory: " ++ path))
  end.

Definition metadata_to_key (j : json) : result (Key * list string) :=
  match j with
  | JObj [(_, JStr kt); (_, JStr sch); (_, JObj [(_, JStr pub)])] =>
      Ok (mkKey kt sch "1a2b3c" (mkKeyVal pub None) None, ["1a2b3c"])
  | _ => Err (FormatError "not a key")
  end.

Definition public_pem (pem : string) : result Key :=
  if String.eqb pem "PUBLIC" then Ok (public_key "rsa")
  else Err (FormatError "not a PEM").

Definition externals : Externals :=
  mkExternals
    (fun bits => if (2048 <=? bits)%Z then Ok tt
                 else Err (FormatError "bits"))
    (fun _ => Ok tt)
    (fun _ => Ok tt)
    (fun _ => Ok tt)
    (fun _ => Ok (key "rsa"))
    (Ok (key "ed25519"))
    (Ok (key "ecdsa-sha2-nistp256"))
    (fun priv password => Ok ("pem<" ++ password ++ ">" ++ priv))
    (fun pem _ _ => Ok (rsa_key pem))
    encrypt
    decrypt
    ["sha256"; "sha512"]
    dumps
    (fun s => "'" ++ s ++ "'")
    (fun s => s)
    (fun s => Ok s)
    public_pem
    load
    metadata_to_key.

(** The same, with an encryption primitive that cannot complete. *)
Definition failing_externals : Externals :=
  mkExternals
    (RSAKEYBITS_SCHEMA_check_match externals)
    (PATH_SCHEMA_check_match externals)
    (PASSWORD_SCHEMA_check_match externals)
    (RSA_SCHEME_SCHEMA_check_match externals)
    (generate_rsa_key externals)
    (generate_ed25519_key externals)
    (generate_ecdsa_key externals)
    (create_rsa_encrypted_pem externals)
    (import_rsakey_from_private_pem externals)
    (fun _ _ => Err (CryptoError "cannot encrypt"))
    decrypt
    (HASH_ALGORITHMS externals)
    dumps
    (repr externals)
    (encode_utf8 externals)
    (decode_utf8 externals)
    public_pem
    load
    metadata_to_key.

(** The same as [externals], with schemas that refuse a path that names no
    file and the password ["bad"], and an RSA encryption that cannot
    complete. *)
Definition strict_externals : Externals :=
  mkExternals
    (RSAKEYBITS_SCHEMA_check_match externals)
    (fun p => if String.eqb (os_path_basename p) ""
              then Err (FormatError "path")
              else Ok tt)
    (fun pw => if String.eqb pw "bad" then Err (FormatError "password")
               else Ok tt)
    (RSA_SCHEME_SCHEMA_check_match externals)
    (generate_rsa_key externals)
    (generate_ed25519_key externals)
    (generate_ecdsa_key externals)
    (fun _ _ => Err (CryptoError "cannot encrypt"))
    (import_rsakey_from_private_pem externals)
    encrypt
    decrypt
    (HASH_ALGORITHMS externals)
    dumps
    (repr externals)
    (encode_utf8 externals)
    (decode_utf8 externals)
    public_pem
    load
    metadata_to_key.

(** A terminal that supplies the lines of [lines], then closes. *)
Definition terminal (lines : list string) : nat -> option string :=
  fun n => nth_error lines n.

Definition world (fs : gmap string string) (lines : list string) : World :=
  mkWorld "/home/alice" fs ∅ ∅ 0 (terminal lines) 0 [] None.

(** A terminal whose user never types the same line twice in a row. *)
Definition alternating : nat -> option string :=
  fun n => Some (if Nat.even n then "a" else "b").

Definition undecided_world : World :=
  mkWorld "/home/alice" ∅ ∅ ∅ 0 alternating 0 [] None.

End Toy.

(** ** Running a computation *)

Definition outcome {A} (m : M A) (w : World) : Outcome A := fst (m w).
Definition final {A} (m : M A) (w : World) : World := snd (m w).

(** The events a run adds to the trace, given the worlds around it. *)
Definition extends_by (w w' : World) (evs : list Event) : Prop :=
  trace w' = (trace w ++ evs)%list.

(** ** Vocabulary for the password prompt *)

(** The [i]-th pair of lines still to be read in [w] is a mismatch. *)
Definition mismatch_at (w : World) (i : nat) : Prop :=
  exists a b,
    stdin w (stdin_pos w + 2 * i) = Some a /\
    stdin w (stdin_pos w + 2 * i + 1) = Some b /\
    a <> b.

(** The [i]-th pair of lines still to be read in [w] is twice [pw]. *)
Definition match_at (w : World) (i : nat) (pw : string) : Prop :=
  stdin w (stdin_pos w + 2 * i) = Some pw /\
  stdin w (stdin_pos w + 2 * i + 1) = Some pw.

(** What one refused attempt leaves in the trace. *)
Definition retry_events (prompt : string) : list Event :=
  [EvGetpass prompt; EvGetpass "Confirm: "; EvPrint "Mismatch; try again."].

Fixpoint retries (prompt : string) (k : nat) : list Event :=
  match k with
  | O => []
  | S k' => retry_events prompt ++ retries prompt k'
  end.

(** The world after one refused attempt. *)
Definition after_mismatch (prompt : string) (w : World) : World :=
  emit (EvPrint "Mismatch; try again.")
    (advance_stdin (emit (EvGetpass "Confirm: ")
      (advance_stdin (emit (EvGetpass prompt) w)))).

(** ** Vocabulary for the entry points *)

(** The password a call ends up with: the one supplied or, when none is,
    the next line on the terminal. *)
Definition resolves (w : World) (password : option string) (pw : string)
    : Prop :=
  match password with
  | Some p => p = pw
  | None => stdin w (stdin_pos w) = Some pw
  end.

(** The path a key-creation call writes to: the one supplied or, when none
    is, the key's [keyid] in the current directory. *)
Definition effective_path (w : World) (filepath : option string) (k : Key)
    : string :=
  if not_ filepath then os_path_join (cwd w) (keyid k)
  else default "" filepath.

(** The envelope of a public Ed25519 or ECDSA key file. *)
Definition public_envelope (k : Key) : json :=
  JObj [("keytype", JStr (keytype k)); ("scheme", JStr (scheme k));
        ("keyval", JObj [("public", JStr (public (keyval k)))])].

(** The events a run has added to the trace of [w] when it ends in [w']. *)
Definition new_events (w w' : World) : list Event :=
  drop (length (trace w)) (trace w').

Definition is_prompt (ev : Event) : bool :=
  match ev with
  | EvGetpass _ | EvInput _ => true
  | _ => false
  end.

Definition is_crypto_call (ev : Event) : bool :=
  match ev with
  | EvCreateRsaEncryptedPem _ _ | EvImportRsaPrivatePem _ _ _
  | EvEncryptKey _ _ | EvDecryptKey _ _ => true
  | _ => false
  end.

Definition is_file_event (ev : Event) : bool :=
  match ev with
  | EvEnsureParentDir _ | EvTempFile _ | EvWrite _ _ | EvMove _ _
  | EvOpen _ | EvLoadJson _ => true
  | _ => false
  end.

(** What a run does to the file system or asks of a cryptographic
    primitive. *)
Definition is_action (ev : Event) : bool :=
  is_file_event ev || is_crypto_call ev.

(** The prompts shown, the calls into the cryptographic primitives and the
    file-system operations of a run. *)
Definition prompts (w w' : World) : list Event :=
  List.filter is_prompt (new_events w w').

Definition crypto_calls (w w' : World) : list Event :=
  List.filter is_crypto_call (new_events w w').

Definition file_events (w w' : World) : list Event :=
  List.filter is_file_event (new_events w w').

(** The file-system operations and the calls into the primitives, in the
    order they happen. *)
Definition actions (w w' : World) : list Event :=
  List.filter is_action (new_events w w').

(** The file-system operations of a complete key creation, in order: the
    public half goes through the temporary file [h], the private half
    through the next one. *)
Definition write_sequence (h : nat) (path pub priv : string) : list Event :=
  [EvEnsureParentDir path;
   EvTempFile h; EvWrite h pub; EvMove h (path ++ ".pub");
   EvTempFile (S h); EvWrite (S h) priv; EvMove (S h) path].

(** The files once the first [k] operations of [write_sequence] are done:
    only the two renames, the 4th and the 7th operation, change them. *)
Definition files_after (k : nat) (fs : gmap string string)
    (path pub priv : string) : gmap string string :=
  if (k <? 4)%nat then fs
  else if (k <? 7)%nat then <[path ++ ".pub" := pub]> fs
  else <[path := priv]> (<[path ++ ".pub" := pub]> fs).

(** A run that went from [w] to [w'] did a prefix of the write sequence,
    and the files are what that prefix leaves; [genuine] holds of the
    private payload once it is written to its temporary file. *)
Definition atomic_run (w w' : World) (path pub : string)
    (genuine : string -> Prop) : Prop :=
  exists k priv,
    file_events w w' = take k (write_sequence (next_temp w) path pub priv) /\
    files w' = files_after k (files w) path pub priv /\
    (5 < k -> genuine priv).

(** The private payload of an RSA key file. *)
Definition rsa_private_payload (E : Externals) (priv password : string)
    : result string :=
  if negb (String.length password =? 0)%nat
  then create_rsa_encrypted_pem E priv password
  else Ok priv.

Definition genuine_rsa_payload (E : Externals) (k : Key) (data : string)
    : Prop :=
  exists priv password payload,
    private (keyval k) = Some priv /\
    rsa_private_payload E priv password = Ok payload /\
    data = encode_utf8 E payload.

Definition genuine_encrypted_payload (E : Externals) (k : Key)
    (data : string) : Prop :=
  exists password encrypted,
    encrypt_key E k password = Ok encrypted /\
    data = encode_utf8 E encrypted.

(** The prompts of the six entry points: they name the file, not its
    directory. *)
Definition rsa_creation_prompt (path : string) : string :=
  "Enter a password for the encrypted RSA key ("
  ++ Fore_RED ++ os_path_basename path ++ Fore_RESET ++ "): ".

Definition rsa_import_prompt (path : string) : string :=
  "Enter a password for the encrypted RSA file ("
  ++ Fore_RED ++ os_path_basename path ++ Fore_RESET ++ "): ".

Definition ed25519_creation_prompt (path : string) : string :=
  "Enter a password for the Ed25519 key ("
  ++ Fore_RED ++ os_path_basename path ++ Fore_RESET ++ "): ".

Definition ed25519_import_prompt (path : string) : string :=
  "Enter a password for the encrypted Ed25519 key ("
  ++ Fore_RED ++ os_path_basename path ++ Fore_RESET ++ "): ".

Definition ecdsa_creation_prompt (path : string) : string :=
  "Enter a password for the ECDSA key ("
  ++ Fore_RED ++ os_path_basename path ++ Fore_RESET ++ "): ".

Definition ecdsa_import_prompt (path : string) : string :=
  "Enter a password for the encrypted ECDSA key ("
  ++ Fore_RED ++ os_path_basename path ++ Fore_RESET ++ "): ".

(** The prompts a run is to show: none when the password is supplied, one
    otherwise. *)
Definition expected_prompts (password : option string) (prompt : string)
    : list Event :=
  match password with
  | Some _ => []
  | None => [EvGetpass prompt]
  end.

(** What it takes for a key creation to go through. *)
Definition rsa_creation_ready (E : Externals) (w : World)
    (filepath : option string) (bits : Z) (password : option string)
    (k : Key) (priv pw payload : string) : Prop :=
  RSAKEYBITS_SCHEMA_check_match E bits = Ok tt /\
  generate_rsa_key E bits = Ok k /\
  private (keyval k) = Some priv /\
  PATH_SCHEMA_check_match E (effective_path w filepath k) = Ok tt /\
  resolves w password pw /\
  PASSWORD_SCHEMA_check_match E pw = Ok tt /\
  rsa_private_payload E priv pw = Ok payload /\
  fault w = None.

Definition envelope_creation_ready (E : Externals) (generated : result Key)
    (w : World) (filepath : option string) (password : option string)
    (k : Key) (pw encrypted : string) : Prop :=
  generated = Ok k /\
  PATH_SCHEMA_check_match E (effective_path w filepath k) = Ok tt /\
  resolves w password pw /\
  PASSWORD_SCHEMA_check_match E pw = Ok tt /\
  encrypt_key E k pw = Ok encrypted /\
  fault w = None.

(** What it takes for a private-key import to reach the primitive: the file
    at [filepath] holds [contents], which decode to [text]. *)
Definition import_ready (E : Externals) (w : World) (filepath : string)
    (password : option string) (pw contents text : string) : Prop :=
  PATH_SCHEMA_check_match E filepath = Ok tt /\
  resolves w password pw /\
  PASSWORD_SCHEMA_check_match E pw = Ok tt /\
  files w !! filepath = Some contents /\
  decode_utf8 E contents = Ok text /\
  fault w = None.

(** What it takes for an Ed25519 or ECDSA key creation to reach the
    encryption of the private half and be refused there with [e]. *)
Definition envelope_encrypt_fails (E : Externals) (generated : result Key)
    (w : World) (filepath : option string) (password : option string)
    (k : Key) (pw : string) (e : exn) : Prop :=
  generated = Ok k /\
  PATH_SCHEMA_check_match E (effective_path w filepath k) = Ok tt /\
  resolves w password pw /\
  PASSWORD_SCHEMA_check_match E pw = Ok tt /\
  encrypt_key E k pw = Err e /\
  fault w = None.

(** The password a call into a cryptographic primitive is made with is
    [pw]; the RSA import is handed [None] for the empty one. *)
Definition carries (pw : string) (ev : Event) : Prop :=
  match ev with
  | EvCreateRsaEncryptedPem _ p | EvEncryptKey _ p | EvDecryptKey _ p =>
      p = pw
  | EvImportRsaPrivatePem _ _ (Some p) => p = pw
  | EvImportRsaPrivatePem _ _ None => pw = ""
  | _ => True
  end.

(** What the RSA import hands to the primitive for the password [pw]. *)
Definition rsa_import_password (pw : string) : option string :=
  if negb (String.length pw =? 0)%nat then Some pw else None.

(** The result of an Ed25519 or ECDSA private-key import, given what the
    decryption returned. *)
Definition checked_key (E : Externals) (expected : string)
    (decrypted : result Key) : Outcome Key :=
  match decrypted with
  | Ok k =>
      if String.eqb (keytype k) expected
      then Ret (set_keyid_hash_algorithms k (HASH_ALGORITHMS E))
      else Raise (FormatError
                    ("Invalid key type loaded: " ++ repr E (keytype k)))
  | Err e => Raise e
  end.

(** The result of a call that may raise, as the outcome of a run. *)
Definition outcome_of {A} (r : result A) : Outcome A :=
  match r with
  | Ok a => Ret a
  | Err e => Raise e
  end.

(** A run from [w] to [w'] asked nothing of the terminal, and called the
    primitives with [pw] only. *)
Definition used_as_is (w w' : World) (pw : string) : Prop :=
  prompts w w' = [] /\ stdin_pos w' = stdin_pos w /\
  Forall (carries pw) (crypto_calls w w').


(** * Properties *)

(** ** The password prompt *)

Section GetPassword.

Variable prompt : string.

Lemma get_password_mismatch_step fuel w :
  mismatch_at w 0 ->
  _get_password (S fuel) prompt true w
  = _get_password fuel prompt true (after_mismatch prompt w).
Proof.
  intros (a & b & Ha & Hb & Hab).
  replace (stdin_pos w + 2 * 0) with (stdin_pos w) in * by lia.
  replace (stdin_pos w + 1) with (S (stdin_pos w)) in Hb by lia.
  cbn [_get_password negb]. unfold bind at 1. unfold getpass at 1.
  rewrite Ha. unfold bind at 1. unfold getpass at 1.
  cbn [stdin stdin_pos advance_stdin emit]. rewrite Hb.
  destruct (String.eqb a b) eqn:Heq.
  - apply String.eqb_eq in Heq. contradiction.
  - reflexivity.
Qed.

Lemma get_password_match_step fuel w pw :
  match_at w 0 pw ->
  _get_password (S fuel) prompt true w
  = (Ret pw,
     advance_stdin (emit (EvGetpass "Confirm: ")
       (advance_stdin (emit (EvGetpass prompt) w)))).
Proof.
  intros [Ha Hb].
  replace (stdin_pos w + 2 * 0) with (stdin_pos w) in * by lia.
  replace (stdin_pos w + 1) with (S (stdin_pos w)) in Hb by lia.
  cbn [_get_password negb]. unfold bind at 1. unfold getpass at 1.
  rewrite Ha. unfold bind at 1. unfold getpass at 1.
  cbn [stdin stdin_pos advance_stdin emit]. rewrite Hb.
  rewrite String.eqb_refl. reflexivity.
Qed.

Lemma after_mismatch_shift w i :
  stdin (after_mismatch prompt w) (stdin_pos (after_mismatch prompt w) + i)
  = stdin w (stdin_pos w + (2 + i)).
Proof. cbn. f_equal. lia. Qed.

Lemma mismatch_at_shift w i :
  mismatch_at w (S i) -> mismatch_at (after_mismatch prompt w) i.
Proof.
  intros (a & b & Ha & Hb & Hab). exists a, b.
  rewrite !after_mismatch_shift. repeat split; [| | exact Hab].
  - rewrite <- Ha. f_equal. lia.
  - replace (stdin_pos (after_mismatch prompt w) + 2 * i + 1)
      with (stdin_pos (after_mismatch prompt w) + (2 * i + 1)) by lia.
    rewrite after_mismatch_shift, <- Hb. f_equal. lia.
Qed.

Lemma match_at_shift w i pw :
  match_at w (S i) pw -> match_at (after_mismatch prompt w) i pw.
Proof.
  intros [Ha Hb]. split.
  - rewrite after_mismatch_shift, <- Ha. f_equal. lia.
  - replace (stdin_pos (after_mismatch prompt w) + 2 * i + 1)
      with (stdin_pos (after_mismatch prompt w) + (2 * i + 1)) by lia.
    rewrite after_mismatch_shift, <- Hb. f_equal. lia.
Qed.

(** With [k] mismatched pairs in front of a matching pair, [k + 1] turns of
    the loop return the matching value. *)
Lemma get_password_confirm_returns k :
  forall fuel w pw,
    (forall i, i < k -> mismatch_at w i) ->
    match_at w k pw ->
    k < fuel ->
    outcome (_get_password fuel prompt true) w = Ret pw /\
    extends_by w (final (_get_password fuel prompt true) w)
      (retries prompt k ++ [EvGetpass prompt; EvGetpass "Confirm: "]) /\
    stdin_pos (final (_get_password fuel prompt true) w)
    = stdin_pos w + 2 * (k + 1).
Proof.
  induction k as [|k IH]; intros fuel w pw Hmis Hmatch Hfuel.
  - destruct fuel as [|fuel]; [lia|].
    unfold outcome, final, extends_by.
    rewrite (get_password_match_step fuel w pw Hmatch).
    cbn. rewrite <- app_assoc. split; [reflexivity|split; [reflexivity|lia]].
  - destruct fuel as [|fuel]; [lia|].
    unfold outcome, final, extends_by in *.
    rewrite get_password_mismatch_step by (apply Hmis; lia).
    destruct (IH fuel (after_mismatch prompt w) pw) as (Ho & Ht & Hp).
    + intros i Hi. apply mismatch_at_shift, Hmis. lia.
    + apply match_at_shift, Hmatch.
    + lia.
    + rewrite Ho, Ht, Hp. cbn. rewrite <- !app_assoc.
      split; [reflexivity|split; [reflexivity|lia]].
Qed.

(** With no matching pair at all, the loop is still running whatever the
    number of turns it is given. *)
Lemma get_password_confirm_diverges fuel :
  forall w,
    (forall i, mismatch_at w i) ->
    outcome (_get_password fuel prompt true) w = Diverge.
Proof.
  induction fuel as [|fuel IH]; intros w Hmis.
  - reflexivity.
  - unfold outcome in *. rewrite get_password_mismatch_step by apply Hmis.
    apply IH. intros i. apply mismatch_at_shift, Hmis.
Qed.

(** Without confirmation, one line is read and returned. *)
Lemma get_password_no_confirm fuel w line :
  stdin w (stdin_pos w) = Some line ->
  _get_password (S fuel) prompt false w
  = (Ret line, advance_stdin (emit (EvGetpass prompt) w)).
Proof.
  intros H. cbn [_get_password negb]. unfold bind, getpass. rewrite H.
  reflexivity.
Qed.

Lemma get_password_no_confirm_eof fuel w :
  stdin w (stdin_pos w) = None ->
  _get_password (S fuel) prompt false w
  = (Raise EOFError, emit (EvGetpass prompt) w).
Proof.
  intros H. cbn [_get_password negb]. unfold bind, getpass. rewrite H.
  reflexivity.
Qed.

End GetPassword.

(** ** Symbolic execution of the entry points *)

Lemma string_length_append (s t : string) :
  String.length (s ++ t) = String.length s + String.length t.
Proof. induction s as [|c s IH]; simpl; [reflexivity|now f_equal]. Qed.

Lemma path_pub_neq (p : string) : p ++ ".pub" <> p.
Proof.
  intros H. apply (f_equal String.length) in H.
  rewrite string_length_append in H. cbn in H. lia.
Qed.

Lemma append_empty_l (s : string) : "" ++ s = s.
Proof. reflexivity. Qed.

Ltac innermost x :=
  lazymatch x with
  | context [match ?y with _ => _ end] => innermost y
  | _ => x
  end.

Ltac destr :=
  match goal with
  | |- context [match ?x with _ => _ end] =>
      let y := innermost x in destruct y eqn:?
  end.

Ltac run :=
  cbv beta iota zeta delta
    [bind ret raise diverge lift log logger_debug print tick getpass
     os_getcwd open_read ensure_parent_dir TempFile TempFile_write
     TempFile_move emit set_fault set_files set_dirs set_temps advance_stdin
     cwd files dirs temps next_temp stdin stdin_pos trace fault outcome final
     keyval_private format_keyval_to_metadata fst snd _get_password negb
     input_ _prompt util_load_json_file envelope_encrypt_fails
     import_rsa_publickey_from_file import_ed25519_publickey_from_file
     import_ecdsa_publickey_from_file
     extends_by effective_path resolves new_events prompts crypto_calls
     file_events actions used_as_is rsa_creation_ready envelope_creation_ready import_ready
     generate_and_write_rsa_keypair generate_and_write_ed25519_keypair
     generate_and_write_ecdsa_keypair import_rsa_privatekey_from_file
     import_ed25519_privatekey_from_file import_ecdsa_privatekey_from_file].

Ltac run_in H :=
  cbv beta iota zeta delta
    [cwd files dirs temps next_temp stdin stdin_pos trace fault
     effective_path resolves rsa_creation_ready envelope_creation_ready
     envelope_encrypt_fails import_ready] in H.

Ltac open_world w :=
  let c := fresh "cwd0" in let fs := fresh "fs" in let ds := fresh "ds" in
  let ts := fresh "ts" in let nt := fresh "nt" in let inp := fresh "inp" in
  let pos := fresh "pos" in let tr := fresh "tr" in let flt := fresh "flt" in
  destruct w as [c fs ds ts nt inp pos tr flt].

(** Give a name to the result of the run the goal is about, so that the
    run is followed once. *)
Ltac name_run :=
  unfold outcome, final;
  let r := fresh "r" in
  let Hrun := fresh "Hrun" in
  let P := fresh "P" in
  first
    [ match goal with
      | |- context [fst (?m ?w)] => remember (m w) as r eqn:Hrun
      end
    | match goal with
      | |- context [snd (?m ?w)] => remember (m w) as r eqn:Hrun
      end ];
  pattern r;
  match goal with |- ?Q r => set (P := Q) end;
  revert Hrun.

(** The call a run is waiting for: use what is known about it ... *)
Ltac step_known :=
  run;
  first
    [ rewrite lookup_insert_eq
    | match goal with
      | |- context [match ?x with _ => _ end] =>
          let y := innermost x in
          match goal with H : y = _ |- _ => rewrite H end
      end ].

(** ... or consider each of its results. *)
Ltac step_all :=
  run;
  first
    [ rewrite lookup_insert_eq
    | match goal with
      | |- context [match ?x with _ => _ end] =>
          let y := innermost x in
          first [ match goal with H : y = _ |- _ => rewrite H end
                | destruct y eqn:? ]
      end ].

(** Follow one path of a run, all of whose calls are known. *)
Ltac exec_known := repeat step_known; run.

(** Once the run is followed to its end, put its result in the goal. *)
Ltac end_run :=
  let Hrun := fresh "Hrun" in
  intros Hrun;
  match type of Hrun with ?r = _ => subst r end;
  match goal with P := _ |- _ => subst P end;
  exec_known.

(** Follow every path of a run. *)
Ltac exec_all := repeat step_all; run.

(** Bring the events of a run into the form of a list. *)
Ltac norm_events :=
  rewrite <- ?app_assoc; rewrite ?drop_app_length, ?drop_all;
  cbn [List.filter is_prompt is_crypto_call is_file_event is_action orb app].

Ltac split_all := repeat match goal with |- _ /\ _ => split end.

Section Creation.

Variable E : Externals.

Lemma rsa_creation_success fuel filepath bits password w key priv pw payload :
  rsa_creation_ready E w filepath bits password key priv pw payload ->
  0 < fuel ->
  let path := effective_path w filepath key in
  let w' :=
    final (generate_and_write_rsa_keypair E fuel filepath bits password) w in
  outcome (generate_and_write_rsa_keypair E fuel filepath bits password) w
  = Ret path /\
  files w'
  = files_after 7 (files w) path
      (encode_utf8 E (public (keyval key))) (encode_utf8 E payload) /\
  file_events w w'
  = write_sequence (next_temp w) path
      (encode_utf8 E (public (keyval key))) (encode_utf8 E payload) /\
  crypto_calls w w'
  = (if (String.length pw =? 0)%nat then []
     else [EvCreateRsaEncryptedPem priv pw]) /\
  prompts w w' = expected_prompts password (rsa_creation_prompt path) /\
  stdin_pos w'
  = stdin_pos w + length (expected_prompts password (rsa_creation_prompt path)).
Proof.
  intros Hready Hfuel. open_world w. run_in Hready.
  destruct Hready as (Hbits & Hgen & Hpriv & Hpath & Hres & Hpw & Hpay & Hf).
  subst flt. destruct fuel as [|fuel]; [lia|].
  unfold rsa_private_payload in Hpay.
  destruct (not_ filepath) eqn:Hfp; destruct password as [p|]; try subst p;
    destruct (String.length pw =? 0)%nat eqn:Hlen; cbn [negb] in Hpay;
    try (injection Hpay as <-);
    name_run; exec_known; end_run;
    norm_events; split_all; try reflexivity;
    cbn [expected_prompts length]; lia.
Qed.

Ltac envelope_success :=
  let Hready := fresh "Hready" in
  let Hfuel := fresh "Hfuel" in
  intros Hready Hfuel;
  match goal with w : World |- _ => open_world w end;
  run_in Hready;
  destruct Hready as (Hgen & Hpath & Hres & Hpw & Henc & Hf);
  subst;
  match goal with fuel : nat |- _ => destruct fuel; [lia|] end;
  match goal with
  | filepath : option string, password : option string |- _ =>
      destruct (not_ filepath) eqn:Hfp; destruct password
  end;
  subst; name_run; exec_known; end_run;
  norm_events; split_all; try reflexivity;
  cbn [expected_prompts length]; lia.

Lemma ed25519_creation_success fuel filepath password w key pw encrypted :
  envelope_creation_ready E (generate_ed25519_key E) w filepath password key pw
    encrypted ->
  0 < fuel ->
  let path := effective_path w filepath key in
  let w' := final (generate_and_write_ed25519_keypair E fuel filepath password) w in
  outcome (generate_and_write_ed25519_keypair E fuel filepath password) w = Ret path /\
  files w'
  = files_after 7 (files w) path
      (encode_utf8 E (json_dumps E (public_envelope key)))
      (encode_utf8 E encrypted) /\
  file_events w w'
  = write_sequence (next_temp w) path
      (encode_utf8 E (json_dumps E (public_envelope key)))
      (encode_utf8 E encrypted) /\
  crypto_calls w w' = [EvEncryptKey key pw] /\
  prompts w w' = expected_prompts password (ed25519_creation_prompt path) /\
  stdin_pos w'
  = stdin_pos w + length (expected_prompts password (ed25519_creation_prompt path)).
Proof. envelope_success. Qed.

Lemma ecdsa_creation_success fuel filepath password w key pw encrypted :
  envelope_creation_ready E (generate_ecdsa_key E) w filepath password key pw
    encrypted ->
  0 < fuel ->
  let path := effective_path w filepath key in
  let w' := final (generate_and_write_ecdsa_keypair E fuel filepath password) w in
  outcome (generate_and_write_ecdsa_keypair E fuel filepath password) w = Ret path /\
  files w'
  = files_after 7 (files w) path
      (encode_utf8 E (json_dumps E (public_envelope key)))
      (encode_utf8 E encrypted) /\
  file_events w w'
  = write_sequence (next_temp w) path
      (encode_utf8 E (json_dumps E (public_envelope key)))
      (encode_utf8 E encrypted) /\
  crypto_calls w w' = [EvEncryptKey key pw] /\
  prompts w w' = expected_prompts password (ecdsa_creation_prompt path) /\
  stdin_pos w'
  = stdin_pos w + length (expected_prompts password (ecdsa_creation_prompt path)).
Proof. envelope_success. Qed.

(** Find the prefix of the write sequence that a run has done. *)
Ltac prefix_short k :=
  exists k, ""; split; [reflexivity|split; [reflexivity|intros; lia]].

Ltac prefix_long k genuine_tac :=
  eexists k, _; split; [reflexivity|split; [reflexivity|intros _; genuine_tac]].

Ltac find_prefix genuine_tac :=
  first [ prefix_short 0 | prefix_short 1 | prefix_short 2 | prefix_short 3
        | prefix_short 4 | prefix_short 5
        | prefix_long 6 genuine_tac | prefix_long 7 genuine_tac ].

Ltac rsa_genuine :=
  unfold genuine_rsa_payload, rsa_private_payload;
  match goal with
  | Hlen : (String.length ?p =? 0)%nat = _, Hpriv : private _ = Some ?s |- _ =>
      exists s, p; rewrite Hlen; cbn [negb];
      eexists; split; [exact Hpriv|split; [first [eassumption|reflexivity]|reflexivity]]
  end.

Ltac envelope_genuine :=
  unfold genuine_encrypted_payload;
  match goal with
  | Henc : encrypt_key _ _ ?p = Ok ?c |- _ =>
      exists p, c; split; [exact Henc|reflexivity]
  end.

(** A supplied password: nothing is asked, and it is what the primitives
    are called with. *)
Ltac supplied :=
  let pw := fresh "pw" in
  let H := fresh "H" in
  intros pw H;
  first [ discriminate H
        | injection H as <-;
          split; [reflexivity|split; [reflexivity|repeat constructor]] ].

Ltac creation_runs genuine_tac :=
  end_run; unfold atomic_run; run; norm_events;
  split; [first [find_prefix genuine_tac | split; reflexivity]|supplied].

(** Every run of the RSA key creation, whatever fails on the way. *)
Lemma rsa_creation_runs fuel filepath bits password w :
  let w' :=
    final (generate_and_write_rsa_keypair E fuel filepath bits password) w in
  match generate_rsa_key E bits with
  | Ok key =>
      atomic_run w w' (effective_path w filepath key)
        (encode_utf8 E (public (keyval key))) (genuine_rsa_payload E key)
  | Err _ => files w' = files w /\ file_events w w' = []
  end /\
  (forall pw, password = Some pw ->
     prompts w w' = [] /\ stdin_pos w' = stdin_pos w /\
     Forall (carries pw) (crypto_calls w w')).
Proof.
  open_world w. destruct password as [pw0|];
    destruct (generate_rsa_key E bits) as [key|e] eqn:Hgen;
    name_run; destruct fuel as [|fuel]; exec_all; creation_runs rsa_genuine.
Qed.

(** Every run of the Ed25519 key creation. *)
Lemma ed25519_creation_runs fuel filepath password w :
  let w' := final (generate_and_write_ed25519_keypair E fuel filepath password) w in
  match generate_ed25519_key E with
  | Ok key =>
      atomic_run w w' (effective_path w filepath key)
        (encode_utf8 E (json_dumps E (public_envelope key)))
        (genuine_encrypted_payload E key)
  | Err _ => files w' = files w /\ file_events w w' = []
  end /\
  (forall pw, password = Some pw ->
     prompts w w' = [] /\ stdin_pos w' = stdin_pos w /\
     Forall (carries pw) (crypto_calls w w')).
Proof.
  open_world w. destruct password as [pw0|];
    destruct (generate_ed25519_key E) as [key|e] eqn:Hgen;
    name_run; destruct fuel as [|fuel]; exec_all;
    creation_runs envelope_genuine.
Qed.

(** Every run of the ECDSA key creation. *)
Lemma ecdsa_creation_runs fuel filepath password w :
  let w' := final (generate_and_write_ecdsa_keypair E fuel filepath password) w in
  match generate_ecdsa_key E with
  | Ok key =>
      atomic_run w w' (effective_path w filepath key)
        (encode_utf8 E (json_dumps E (public_envelope key)))
        (genuine_encrypted_payload E key)
  | Err _ => files w' = files w /\ file_events w w' = []
  end /\
  (forall pw, password = Some pw ->
     prompts w w' = [] /\ stdin_pos w' = stdin_pos w /\
     Forall (carries pw) (crypto_calls w w')).
Proof.
  open_world w. destruct password as [pw0|];
    destruct (generate_ecdsa_key E) as [key|e] eqn:Hgen;
    name_run; destruct fuel as [|fuel]; exec_all;
    creation_runs envelope_genuine.
Qed.

End Creation.

(** ** Refused encryption, and the imports *)

Lemma length_zero_empty (s : string) :
  (String.length s =? 0)%nat = true -> s = "".
Proof. destruct s; [reflexivity|discriminate]. Qed.

Section Failure.

Variable E : Externals.

Ltac encrypt_failure :=
  let Hfails := fresh "Hfails" in
  let Hfuel := fresh "Hfuel" in
  intros Hfails Hfuel;
  match goal with w : World |- _ => open_world w end;
  run_in Hfails;
  destruct Hfails as (Hgen & Hpath & Hres & Hpw & Henc & Hf);
  subst;
  match goal with fuel : nat |- _ => destruct fuel; [lia|] end;
  match goal with
  | filepath : option string, password : option string |- _ =>
      destruct (not_ filepath) eqn:Hfp; destruct password
  end;
  subst; name_run; exec_known; end_run;
  norm_events; split_all; reflexivity.

Lemma ed25519_encrypt_failure fuel filepath password w key pw e :
  envelope_encrypt_fails E (generate_ed25519_key E) w filepath password key pw
    e ->
  0 < fuel ->
  let path := effective_path w filepath key in
  let pub := encode_utf8 E (json_dumps E (public_envelope key)) in
  let w' := final (generate_and_write_ed25519_keypair E fuel filepath password) w in
  outcome (generate_and_write_ed25519_keypair E fuel filepath password) w
  = Raise e /\
  files w' = <[path ++ ".pub" := pub]> (files w) /\
  actions w w'
  = [EvEnsureParentDir path;
     EvTempFile (next_temp w); EvWrite (next_temp w) pub;
     EvMove (next_temp w) (path ++ ".pub");
     EvTempFile (S (next_temp w)); EvEncryptKey key pw].
Proof. encrypt_failure. Qed.

Lemma ecdsa_encrypt_failure fuel filepath password w key pw e :
  envelope_encrypt_fails E (generate_ecdsa_key E) w filepath password key pw
    e ->
  0 < fuel ->
  let path := effective_path w filepath key in
  let pub := encode_utf8 E (json_dumps E (public_envelope key)) in
  let w' := final (generate_and_write_ecdsa_keypair E fuel filepath password) w in
  outcome (generate_and_write_ecdsa_keypair E fuel filepath password) w
  = Raise e /\
  files w' = <[path ++ ".pub" := pub]> (files w) /\
  actions w w'
  = [EvEnsureParentDir path;
     EvTempFile (next_temp w); EvWrite (next_temp w) pub;
     EvMove (next_temp w) (path ++ ".pub");
     EvTempFile (S (next_temp w)); EvEncryptKey key pw].
Proof. encrypt_failure. Qed.

End Failure.

Section PrivateImports.

Variable E : Externals.

Ltac import_run :=
  let Hready := fresh "Hready" in
  let Hfuel := fresh "Hfuel" in
  intros Hready Hfuel;
  match goal with w : World |- _ => open_world w end;
  run_in Hready;
  destruct Hready as (Hpath & Hres & Hpw & Hfile & Hdec & Hf);
  subst;
  match goal with fuel : nat |- _ => destruct fuel; [lia|] end;
  unfold rsa_import_password, outcome_of, checked_key;
  match goal with password : option string |- _ => destruct password end;
  subst; name_run; exec_all; end_run;
  norm_events; split_all; reflexivity.

Lemma rsa_import_run fuel filepath password sch w pw contents text :
  import_ready E w filepath password pw contents text ->
  0 < fuel ->
  RSA_SCHEME_SCHEMA_check_match E sch = Ok tt ->
  let w' := final (import_rsa_privatekey_from_file E fuel filepath password sch) w in
  outcome (import_rsa_privatekey_from_file E fuel filepath password sch) w
  = outcome_of
      (import_rsakey_from_private_pem E text sch (rsa_import_password pw)) /\
  crypto_calls w w'
  = [EvImportRsaPrivatePem text sch (rsa_import_password pw)] /\
  prompts w w' = expected_prompts password (rsa_import_prompt filepath) /\
  files w' = files w.
Proof. intros Hr Hf Hsch; revert Hr Hf. import_run. Qed.

Lemma ed25519_import_run fuel filepath password w pw contents text :
  import_ready E w filepath password pw contents text ->
  0 < fuel ->
  let w' := final (import_ed25519_privatekey_from_file E fuel filepath password) w in
  outcome (import_ed25519_privatekey_from_file E fuel filepath password) w
  = checked_key E "ed25519" (decrypt_key E text pw) /\
  crypto_calls w w' = [EvDecryptKey text pw] /\
  prompts w w' = expected_prompts password (ed25519_import_prompt filepath) /\
  files w' = files w.
Proof. import_run. Qed.

Lemma ecdsa_import_run fuel filepath password w pw contents text :
  import_ready E w filepath password pw contents text ->
  0 < fuel ->
  let w' := final (import_ecdsa_privatekey_from_file E fuel filepath password) w in
  outcome (import_ecdsa_privatekey_from_file E fuel filepath password) w
  = checked_key E "ecdsa-sha2-nistp256" (decrypt_key E text pw) /\
  crypto_calls w w' = [EvDecryptKey text pw] /\
  prompts w w' = expected_prompts password (ecdsa_import_prompt filepath) /\
  files w' = files w.
Proof. import_run. Qed.

(** A supplied password in an import: nothing is asked, and it is what the
    primitive is called with. *)
Ltac import_supplied :=
  let pw := fresh "pw" in
  let H := fresh "H" in
  intros pw H;
  first [ discriminate H
        | injection H as <-;
          split; [reflexivity|split; [reflexivity|]];
          repeat constructor;
          first [ reflexivity
                | symmetry; apply length_zero_empty; assumption
                | apply length_zero_empty; assumption ] ].

Ltac import_runs fuel :=
  match goal with w : World |- _ => open_world w end;
  match goal with password : option string |- _ => destruct password end;
  name_run; destruct fuel;
  exec_all; end_run; norm_events;
  (split_all; [reflexivity|reflexivity|reflexivity|import_supplied]).

(** Every run of an import leaves the files, the directories and the
    temporary files as they are. *)
Lemma rsa_import_runs fuel filepath password sch w :
  let w' := final (import_rsa_privatekey_from_file E fuel filepath password sch) w in
  files w' = files w /\ dirs w' = dirs w /\ temps w' = temps w /\
  (forall pw, password = Some pw ->
     prompts w w' = [] /\ stdin_pos w' = stdin_pos w /\
     Forall (carries pw) (crypto_calls w w')).
Proof. import_runs fuel. Qed.

Lemma ed25519_import_runs fuel filepath password w :
  let w' := final (import_ed25519_privatekey_from_file E fuel filepath password) w in
  files w' = files w /\ dirs w' = dirs w /\ temps w' = temps w /\
  (forall pw, password = Some pw ->
     prompts w w' = [] /\ stdin_pos w' = stdin_pos w /\
     Forall (carries pw) (crypto_calls w w')).
Proof. import_runs fuel. Qed.

Lemma ecdsa_import_runs fuel filepath password w :
  let w' := final (import_ecdsa_privatekey_from_file E fuel filepath password) w in
  files w' = files w /\ dirs w' = dirs w /\ temps w' = temps w /\
  (forall pw, password = Some pw ->
     prompts w w' = [] /\ stdin_pos w' = stdin_pos w /\
     Forall (carries pw) (crypto_calls w w')).
Proof. import_runs fuel. Qed.

End PrivateImports.

(** * The claims of the specification *)

(** ** The confirmation loop *)

Lemma mismatch_at_unshift prompt w i :
  mismatch_at (after_mismatch prompt w) i -> mismatch_at w (S i).
Proof.
  intros (a & b & Ha & Hb & Hab). exists a, b.
  rewrite after_mismatch_shift in Ha.
  replace (stdin_pos (after_mismatch prompt w) + 2 * i + 1)
    with (stdin_pos (after_mismatch prompt w) + (2 * i + 1)) in Hb by lia.
  rewrite after_mismatch_shift in Hb.
  repeat split; [| |exact Hab].
  - rewrite <- Ha. f_equal; lia.
  - rewrite <- Hb. f_equal; lia.
Qed.

Lemma match_at_unshift prompt w i pw :
  match_at (after_mismatch prompt w) i pw -> match_at w (S i) pw.
Proof.
  intros [Ha Hb].
  rewrite after_mismatch_shift in Ha.
  replace (stdin_pos (after_mismatch prompt w) + 2 * i + 1)
    with (stdin_pos (after_mismatch prompt w) + (2 * i + 1)) in Hb by lia.
  rewrite after_mismatch_shift in Hb.
  split.
  - rewrite <- Ha. f_equal; lia.
  - rewrite <- Hb. f_equal; lia.
Qed.

(** A returned password was typed twice in a row, after mismatched pairs
    only. *)
Lemma get_password_confirm_only_matching prompt fuel :
  forall w pw,
    outcome (_get_password fuel prompt true) w = Ret pw ->
    exists k,
      k < fuel /\ (forall i, i < k -> mismatch_at w i) /\ match_at w k pw.
Proof.
  induction fuel as [|fuel IH]; intros w pw H; [discriminate|].
  unfold outcome in *.
  destruct (stdin w (stdin_pos w)) as [a|] eqn:Ha.
  - destruct (stdin w (S (stdin_pos w))) as [b|] eqn:Hb.
    + destruct (String.eqb a b) eqn:Hab.
      * apply String.eqb_eq in Hab. subst b.
        assert (Hm : match_at w 0 a).
        { split.
          - rewrite <- Ha. f_equal; lia.
          - rewrite <- Hb. f_equal; lia. }
        rewrite (get_password_match_step prompt fuel w a Hm) in H.
        injection H as <-. exists 0.
        split; [lia|split; [intros i Hi; lia|exact Hm]].
      * apply String.eqb_neq in Hab.
        assert (Hm : mismatch_at w 0).
        { exists a, b. repeat split; [| |exact Hab].
          - rewrite <- Ha. f_equal; lia.
          - rewrite <- Hb. f_equal; lia. }
        rewrite (get_password_mismatch_step prompt fuel w Hm) in H.
        destruct (IH _ _ H) as (k & Hk & Hmis & Hmatch).
        exists (S k). split; [lia|split].
        -- intros [|i] Hi; [exact Hm|].
           apply mismatch_at_unshift with (prompt := prompt), Hmis. lia.
        -- apply match_at_unshift with (prompt := prompt), Hmatch.
    + cbn [_get_password negb] in H. unfold bind at 1 in H.
      unfold getpass at 1 in H. rewrite Ha in H.
      unfold bind at 1 in H. unfold getpass at 1 in H.
      cbn [stdin stdin_pos advance_stdin emit] in H. rewrite Hb in H.
      discriminate.
  - cbn [_get_password negb] in H. unfold bind at 1 in H.
    unfold getpass at 1 in H. rewrite Ha in H. discriminate.
Qed.

(** C9: with [confirm=True], [_get_password] returns a password only when
    it was entered twice in a row: after [k] mismatched pairs of entries and
    one matching pair it returns the matching value, having printed the
    retry notice and prompted again once per mismatch; a returned value is
    always such a matching pair preceded by mismatches only; two different
    values followed by two equal ones give the equal one; and with no
    matching pair on the input the loop has not ended after any number of
    turns. *)
Theorem get_password_confirm_loop (prompt : string) :
  (forall k fuel w pw,
      (forall i, i < k -> mismatch_at w i) ->
      match_at w k pw ->
      k < fuel ->
      outcome (_get_password fuel prompt true) w = Ret pw /\
      extends_by w (final (_get_password fuel prompt true) w)
        (retries prompt k ++ [EvGetpass prompt; EvGetpass "Confirm: "]) /\
      stdin_pos (final (_get_password fuel prompt true) w)
      = stdin_pos w + 2 * (k + 1)) /\
  (forall fuel w pw,
      outcome (_get_password fuel prompt true) w = Ret pw ->
      exists k,
        k < fuel /\ (forall i, i < k -> mismatch_at w i) /\
        match_at w k pw) /\
  (forall fuel w a b c,
      stdin w (stdin_pos w) = Some a ->
      stdin w (stdin_pos w + 1) = Some b ->
      stdin w (stdin_pos w + 2) = Some c ->
      stdin w (stdin_pos w + 3) = Some c ->
      a <> b ->
      1 < fuel ->
      outcome (_get_password fuel prompt true) w = Ret c /\
      extends_by w (final (_get_password fuel prompt true) w)
        [EvGetpass prompt; EvGetpass "Confirm: ";
         EvPrint "Mismatch; try again.";
         EvGetpass prompt; EvGetpass "Confirm: "]) /\
  (forall fuel w,
      (forall i, mismatch_at w i) ->
      outcome (_get_password fuel prompt true) w = Diverge).
Proof.
  split; [|split; [|split]].
  - intros k fuel w pw Hmis Hmatch Hfuel.
    apply get_password_confirm_returns; assumption.
  - intros fuel w pw H.
    apply get_password_confirm_only_matching with (prompt := prompt).
    exact H.
  - intros fuel w a b c Ha Hb Hc Hc' Hab Hfuel.
    destruct (get_password_confirm_returns prompt 1 fuel w c)
      as (Ho & Ht & _).
    + intros i Hi. assert (i = 0) as -> by lia. exists a, b.
      repeat split; [| |exact Hab].
      * rewrite <- Ha. f_equal; lia.
      * rewrite <- Hb. f_equal; lia.
    + split.
      * rewrite <- Hc. f_equal; lia.
      * rewrite <- Hc'. f_equal; lia.
    + exact Hfuel.
    + split; [exact Ho|exact Ht].
  - intros fuel w Hmis. apply get_password_confirm_diverges. exact Hmis.
Qed.

Lemma alternating_mismatch (i : nat) : mismatch_at Toy.undecided_world i.
Proof.
  exists "a", "b". unfold Toy.undecided_world, Toy.alternating.
  cbn [stdin stdin_pos].
  repeat split; [| |discriminate].
  - replace (Nat.even (0 + 2 * i)) with true; [reflexivity|].
    symmetry. apply Nat.even_spec. exists i. lia.
  - replace (Nat.even (0 + 2 * i + 1)) with false; [reflexivity|].
    symmetry. rewrite <- Nat.negb_odd. apply negb_false_iff.
    apply Nat.odd_spec. exists i. lia.
Qed.

Lemma get_password_confirm_loop_witness :
  outcome (_get_password 2 "Password: " true)
    (Toy.world ∅ ["a"; "b"; "c"; "c"]) = Ret "c" /\
  outcome (_get_password 9 "Password: " true) Toy.undecided_world = Diverge.
Proof.
  destruct (get_password_confirm_loop "Password: ")
    as (_ & _ & Hthen & Hnever).
  split.
  - apply (Hthen 2 (Toy.world ∅ ["a"; "b"; "c"; "c"]) "a" "b" "c");
      first [reflexivity | discriminate | lia].
  - apply Hnever. exact alternating_mismatch.
Defined.

(** ** What the files hold after a key creation *)

Lemma path_neq_pub (p : string) : p <> p ++ ".pub".
Proof. intros H. symmetry in H. exact (path_pub_neq p H). Qed.

Lemma files_after_private fs path pub priv :
  files_after 7 fs path pub priv !! path = Some priv.
Proof. unfold files_after. cbn [Nat.ltb Nat.leb]. apply lookup_insert_eq. Qed.

Lemma files_after_public fs path pub priv :
  files_after 7 fs path pub priv !! (path ++ ".pub") = Some pub.
Proof.
  unfold files_after. cbn [Nat.ltb Nat.leb].
  rewrite lookup_insert_ne by apply path_neq_pub. apply lookup_insert_eq.
Qed.

(** After a run that did a prefix of the write sequence, a path holds what
    it held before, or it is one of the two destinations and holds the whole
    payload meant for it. *)
Lemma atomic_run_destinations w w' path pub genuine :
  atomic_run w w' path pub genuine ->
  forall q,
    files w' !! q = files w !! q \/
    (q = path ++ ".pub" /\ files w' !! q = Some pub) \/
    (q = path /\ exists priv, genuine priv /\ files w' !! q = Some priv).
Proof.
  intros (k & priv & _ & Hfiles & Hgen) q. rewrite Hfiles.
  unfold files_after.
  destruct (k <? 4)%nat eqn:H4; [left; reflexivity|].
  destruct (k <? 7)%nat eqn:H7.
  - destruct (decide (q = path ++ ".pub")) as [->|Hq].
    + right; left. split; [reflexivity|apply lookup_insert_eq].
    + left. apply lookup_insert_ne. congruence.
  - apply Nat.ltb_ge in H7.
    destruct (decide (q = path)) as [->|Hq].
    + right; right. split; [reflexivity|]. exists priv.
      split; [apply Hgen; lia|apply lookup_insert_eq].
    + rewrite lookup_insert_ne by congruence.
      destruct (decide (q = path ++ ".pub")) as [->|Hq'].
      * right; left. split; [reflexivity|apply lookup_insert_eq].
      * left. apply lookup_insert_ne. congruence.
Qed.

(** ** Password acquisition on the creation path *)

(** C1 (the behaviour of the code, which differs from the claim): a key
    creation called with [password = None] shows one prompt, reads one line
    and takes that line as the password; there is no second prompt, and what
    is typed next is not looked at. *)
Theorem creation_prompts_without_confirmation
    (E : Externals) fuel filepath bits w line :
  0 < fuel ->
  (forall key priv payload,
      rsa_creation_ready E w filepath bits None key priv line payload ->
      let path := effective_path w filepath key in
      let w' :=
        final (generate_and_write_rsa_keypair E fuel filepath bits None) w in
      outcome (generate_and_write_rsa_keypair E fuel filepath bits None) w
      = Ret path /\
      prompts w w' = [EvGetpass (rsa_creation_prompt path)] /\
      stdin_pos w' = stdin_pos w + 1 /\
      files w' !! path = Some (encode_utf8 E payload)) /\
  (forall key encrypted,
      envelope_creation_ready E (generate_ed25519_key E) w filepath None key
        line encrypted ->
      let path := effective_path w filepath key in
      let w' :=
        final (generate_and_write_ed25519_keypair E fuel filepath None) w in
      outcome (generate_and_write_ed25519_keypair E fuel filepath None) w
      = Ret path /\
      prompts w w' = [EvGetpass (ed25519_creation_prompt path)] /\
      stdin_pos w' = stdin_pos w + 1 /\
      crypto_calls w w' = [EvEncryptKey key line]) /\
  (forall key encrypted,
      envelope_creation_ready E (generate_ecdsa_key E) w filepath None key
        line encrypted ->
      let path := effective_path w filepath key in
      let w' :=
        final (generate_and_write_ecdsa_keypair E fuel filepath None) w in
      outcome (generate_and_write_ecdsa_keypair E fuel filepath None) w
      = Ret path /\
      prompts w w' = [EvGetpass (ecdsa_creation_prompt path)] /\
      stdin_pos w' = stdin_pos w + 1 /\
      crypto_calls w w' = [EvEncryptKey key line]).
Proof.
  intros Hfuel. split; [|split].
  - intros key priv payload Hready.
    pose proof (rsa_creation_success E fuel filepath bits None w key priv
                  line payload Hready Hfuel) as H.
    cbv zeta in H. destruct H as (Ho & Hfiles & _ & _ & Hp & Hpos).
    cbv zeta. split; [exact Ho|split; [exact Hp|split; [exact Hpos|]]].
    rewrite Hfiles. apply files_after_private.
  - intros key encrypted Hready.
    pose proof (ed25519_creation_success E fuel filepath None w key line
                  encrypted Hready Hfuel) as H.
    cbv zeta in H. destruct H as (Ho & _ & _ & Hc & Hp & Hpos).
    cbv zeta. split; [exact Ho|split; [exact Hp|split; [exact Hpos|exact Hc]]].
  - intros key encrypted Hready.
    pose proof (ecdsa_creation_success E fuel filepath None w key line
                  encrypted Hready Hfuel) as H.
    cbv zeta in H. destruct H as (Ho & _ & _ & Hc & Hp & Hpos).
    cbv zeta. split; [exact Ho|split; [exact Hp|split; [exact Hpos|exact Hc]]].
Qed.

Lemma creation_prompts_without_confirmation_witness :
  let w := Toy.world ∅ ["hunter2"; "hunter3"] in
  let w' :=
    final (generate_and_write_ed25519_keypair Toy.externals 1 (Some "k") None)
      w in
  outcome (generate_and_write_ed25519_keypair Toy.externals 1 (Some "k") None)
    w = Ret "k" /\
  prompts w w' = [EvGetpass (ed25519_creation_prompt "k")] /\
  stdin_pos w' = 1 /\
  crypto_calls w w' = [EvEncryptKey (Toy.key "ed25519") "hunter2"].
Proof.
  intros w w'.
  destruct (creation_prompts_without_confirmation Toy.externals 1 (Some "k")
              3072 w "hunter2") as (_ & Hed & _); [lia|].
  apply (Hed (Toy.key "ed25519") "enc<hunter2>ed25519").
  repeat split; reflexivity.
Defined.

(** ** Encryption of the private half *)

(** C2 (amended): [generate_and_write_rsa_keypair] writes the plaintext
    private PEM, with no call into an encryption primitive, when the resolved
    password is empty, and the output of [create_rsa_encrypted_pem] when it
    is not; [generate_and_write_ed25519_keypair] and
    [generate_and_write_ecdsa_keypair] write the output of [encrypt_key]
    called with the resolved password, whatever it is, the empty string
    included. *)
Theorem private_payload_encryption
    (E : Externals) fuel filepath bits password w pw :
  0 < fuel ->
  (forall key priv payload,
      rsa_creation_ready E w filepath bits password key priv pw payload ->
      let path := effective_path w filepath key in
      let w' :=
        final (generate_and_write_rsa_keypair E fuel filepath bits password)
          w in
      (String.length pw = 0 ->
       files w' !! path = Some (encode_utf8 E priv) /\
       crypto_calls w w' = []) /\
      (String.length pw <> 0 ->
       create_rsa_encrypted_pem E priv pw = Ok payload /\
       files w' !! path = Some (encode_utf8 E payload) /\
       crypto_calls w w' = [EvCreateRsaEncryptedPem priv pw])) /\
  (forall key encrypted,
      envelope_creation_ready E (generate_ed25519_key E) w filepath password
        key pw encrypted ->
      let path := effective_path w filepath key in
      let w' :=
        final (generate_and_write_ed25519_keypair E fuel filepath password)
          w in
      encrypt_key E key pw = Ok encrypted /\
      files w' !! path = Some (encode_utf8 E encrypted) /\
      crypto_calls w w' = [EvEncryptKey key pw]) /\
  (forall key encrypted,
      envelope_creation_ready E (generate_ecdsa_key E) w filepath password
        key pw encrypted ->
      let path := effective_path w filepath key in
      let w' :=
        final (generate_and_write_ecdsa_keypair E fuel filepath password)
          w in
      encrypt_key E key pw = Ok encrypted /\
      files w' !! path = Some (encode_utf8 E encrypted) /\
      crypto_calls w w' = [EvEncryptKey key pw]).
Proof.
  intros Hfuel. split; [|split].
  - intros key priv payload Hready.
    pose proof (rsa_creation_success E fuel filepath bits password w key priv
                  pw payload Hready Hfuel) as H.
    cbv zeta in H. destruct H as (_ & Hfiles & _ & Hc & _ & _).
    destruct Hready as (_ & _ & _ & _ & _ & _ & Hpay & _).
    unfold rsa_private_payload in Hpay.
    cbv zeta. rewrite Hfiles, files_after_private, Hc. split.
    + intros Hlen. rewrite Hlen in *. cbn in Hpay. injection Hpay as <-.
      split; reflexivity.
    + intros Hlen. apply Nat.eqb_neq in Hlen. rewrite Hlen in *.
      cbn in Hpay. split; [exact Hpay|split; reflexivity].
  - intros key encrypted Hready.
    pose proof (ed25519_creation_success E fuel filepath password w key pw
                  encrypted Hready Hfuel) as H.
    cbv zeta in H. destruct H as (_ & Hfiles & _ & Hc & _ & _).
    destruct Hready as (_ & _ & _ & _ & Henc & _).
    cbv zeta. rewrite Hfiles, files_after_private.
    split; [exact Henc|split; [reflexivity|exact Hc]].
  - intros key encrypted Hready.
    pose proof (ecdsa_creation_success E fuel filepath password w key pw
                  encrypted Hready Hfuel) as H.
    cbv zeta in H. destruct H as (_ & Hfiles & _ & Hc & _ & _).
    destruct Hready as (_ & _ & _ & _ & Henc & _).
    cbv zeta. rewrite Hfiles, files_after_private.
    split; [exact Henc|split; [reflexivity|exact Hc]].
Qed.

Lemma private_payload_encryption_witness :
  let w := Toy.world ∅ [] in
  (let w' :=
     final (generate_and_write_rsa_keypair Toy.externals 1 (Some "k") 3072
              (Some "")) w in
   files w' !! "k" = Some "PRIVATE" /\ crypto_calls w w' = []) /\
  (let w' :=
     final (generate_and_write_ecdsa_keypair Toy.externals 1 (Some "k")
              (Some "")) w in
   files w' !! "k" = Some "enc<>ecdsa-sha2-nistp256" /\
   crypto_calls w w' = [EvEncryptKey (Toy.key "ecdsa-sha2-nistp256") ""]).
Proof.
  intros w.
  destruct (private_payload_encryption Toy.externals 1 (Some "k") 3072
              (Some "") w "") as (Hrsa & _ & Hecdsa); [lia|].
  split.
  - destruct (Hrsa (Toy.key "rsa") "PRIVATE" "PRIVATE") as [Hempty _].
    + repeat split; reflexivity.
    + apply Hempty. reflexivity.
  - destruct (Hecdsa (Toy.key "ecdsa-sha2-nistp256")
                "enc<>ecdsa-sha2-nistp256") as (_ & Hf & Hc).
    + repeat split; reflexivity.
    + split; [exact Hf|exact Hc].
Defined.

(** C2, as stated, fails: with the empty password the Ed25519 key creation
    calls [encrypt_key], and what it writes is the output of that call, not
    the private key. *)
Lemma ed25519_empty_password_is_encrypted :
  let w := Toy.world ∅ [] in
  let w' :=
    final (generate_and_write_ed25519_keypair Toy.externals 1 (Some "k")
             (Some "")) w in
  outcome (generate_and_write_ed25519_keypair Toy.externals 1 (Some "k")
             (Some "")) w = Ret "k" /\
  private (keyval (Toy.key "ed25519")) = Some "PRIVATE" /\
  crypto_calls w w' = [EvEncryptKey (Toy.key "ed25519") ""] /\
  files w' !! "k" = Some "enc<>ed25519" /\
  files w' !! "k" <> Some "PRIVATE".
Proof. vm_compute. repeat split. discriminate. Qed.

(** ** The imports *)




(** C4 (amended): [import_rsa_privatekey_from_file] hands the PEM import no
    password when the resolved password is empty, so that the file is parsed
    as an unencrypted key, and the password when it is not;
    [import_ed25519_privatekey_from_file] and
    [import_ecdsa_privatekey_from_file] call [decrypt_key] with the resolved
    password, whatever it is, the empty string included. *)
Theorem import_password_dispatch
    (E : Externals) fuel filepath password sch w pw contents text :
  import_ready E w filepath password pw contents text ->
  0 < fuel ->
  (RSA_SCHEME_SCHEMA_check_match E sch = Ok tt ->
   let w' :=
     final (import_rsa_privatekey_from_file E fuel filepath password sch) w in
   (String.length pw = 0 ->
    crypto_calls w w' = [EvImportRsaPrivatePem text sch None]) /\
   (String.length pw <> 0 ->
    crypto_calls w w' = [EvImportRsaPrivatePem text sch (Some pw)])) /\
  crypto_calls w
    (final (import_ed25519_privatekey_from_file E fuel filepath password) w)
  = [EvDecryptKey text pw] /\
  crypto_calls w
    (final (import_ecdsa_privatekey_from_file E fuel filepath password) w)
  = [EvDecryptKey text pw].
Proof.
  intros Hready Hfuel. split; [|split].
  - intros Hsch.
    pose proof (rsa_import_run E fuel filepath password sch w pw contents
                  text Hready Hfuel Hsch) as H.
    cbv zeta in H. destruct H as (_ & Hc & _).
    cbv zeta. rewrite Hc. unfold rsa_import_password. split; intros Hlen.
    + rewrite Hlen. reflexivity.
    + apply Nat.eqb_neq in Hlen. rewrite Hlen. reflexivity.
  - pose proof (ed25519_import_run E fuel filepath password w pw contents
                  text Hready Hfuel) as H.
    cbv zeta in H. destruct H as (_ & Hc & _). exact Hc.
  - pose proof (ecdsa_import_run E fuel filepath password w pw contents
                  text Hready Hfuel) as H.
    cbv zeta in H. destruct H as (_ & Hc & _). exact Hc.
Qed.

Lemma import_password_dispatch_witness :
  let w := Toy.world {["k" := "enc<>ecdsa-sha2-nistp256"]} [] in
  crypto_calls w
    (final (import_rsa_privatekey_from_file Toy.externals 1 "k" (Some "")
              "rsassa-pss-sha256") w)
  = [EvImportRsaPrivatePem "enc<>ecdsa-sha2-nistp256" "rsassa-pss-sha256"
       None] /\
  crypto_calls w
    (final (import_ecdsa_privatekey_from_file Toy.externals 1 "k" (Some ""))
       w)
  = [EvDecryptKey "enc<>ecdsa-sha2-nistp256" ""].
Proof.
  intros w.
  destruct (import_password_dispatch Toy.externals 1 "k" (Some "")
              "rsassa-pss-sha256" w "" "enc<>ecdsa-sha2-nistp256"
              "enc<>ecdsa-sha2-nistp256") as (Hrsa & _ & Hecdsa).
  - repeat split; reflexivity.
  - lia.
  - split; [|exact Hecdsa].
    destruct (Hrsa eq_refl) as [Hempty _]. apply Hempty. reflexivity.
Defined.

(** C4, as stated, fails: with the empty password the Ed25519 import still
    calls [decrypt_key]. *)
Lemma ed25519_import_empty_password_decrypts :
  let w := Toy.world {["k" := "enc<>ed25519"]} [] in
  let w' :=
    final (import_ed25519_privatekey_from_file Toy.externals 1 "k" (Some ""))
      w in
  crypto_calls w w' = [EvDecryptKey "enc<>ed25519" ""] /\
  crypto_calls w w' <> [].
Proof. vm_compute. split; [reflexivity|discriminate]. Qed.

(** ** Writing the key files *)

(** C5: every run of a key creation, whatever fails and wherever, does a
    prefix of one sequence of file operations, in which each of the two
    payloads is written in full to a temporary file that is then renamed to
    its destination; the files are changed by the two renames only, so that
    a destination holds what it held before the call or the whole payload,
    and every other path is left as it was. *)
Theorem creation_writes_are_atomic
    (E : Externals) fuel filepath bits password w :
  (let w' :=
     final (generate_and_write_rsa_keypair E fuel filepath bits password) w in
   match generate_rsa_key E bits with
   | Ok key =>
       let path := effective_path w filepath key in
       let pub := encode_utf8 E (public (keyval key)) in
       atomic_run w w' path pub (genuine_rsa_payload E key) /\
       forall q,
         files w' !! q = files w !! q \/
         (q = path ++ ".pub" /\ files w' !! q = Some pub) \/
         (q = path /\
          exists priv,
            genuine_rsa_payload E key priv /\ files w' !! q = Some priv)
   | Err _ => files w' = files w /\ file_events w w' = []
   end) /\
  (let w' :=
     final (generate_and_write_ed25519_keypair E fuel filepath password) w in
   match generate_ed25519_key E with
   | Ok key =>
       let path := effective_path w filepath key in
       let pub := encode_utf8 E (json_dumps E (public_envelope key)) in
       atomic_run w w' path pub (genuine_encrypted_payload E key) /\
       forall q,
         files w' !! q = files w !! q \/
         (q = path ++ ".pub" /\ files w' !! q = Some pub) \/
         (q = path /\
          exists priv,
            genuine_encrypted_payload E key priv /\
            files w' !! q = Some priv)
   | Err _ => files w' = files w /\ file_events w w' = []
   end) /\
  (let w' :=
     final (generate_and_write_ecdsa_keypair E fuel filepath password) w in
   match generate_ecdsa_key E with
   | Ok key =>
       let path := effective_path w filepath key in
       let pub := encode_utf8 E (json_dumps E (public_envelope key)) in
       atomic_run w w' path pub (genuine_encrypted_payload E key) /\
       forall q,
         files w' !! q = files w !! q \/
         (q = path ++ ".pub" /\ files w' !! q = Some pub) \/
         (q = path /\
          exists priv,
            genuine_encrypted_payload E key priv /\
            files w' !! q = Some priv)
   | Err _ => files w' = files w /\ file_events w w' = []
   end).
Proof.
  split; [|split]; cbv zeta.
  - pose proof (rsa_creation_runs E fuel filepath bits password w) as H.
    cbv zeta in H. destruct H as [H _].
    destruct (generate_rsa_key E bits); [|exact H].
    split; [exact H|apply atomic_run_destinations; exact H].
  - pose proof (ed25519_creation_runs E fuel filepath password w) as H.
    cbv zeta in H. destruct H as [H _].
    destruct (generate_ed25519_key E); [|exact H].
    split; [exact H|apply atomic_run_destinations; exact H].
  - pose proof (ecdsa_creation_runs E fuel filepath password w) as H.
    cbv zeta in H. destruct H as [H _].
    destruct (generate_ecdsa_key E); [|exact H].
    split; [exact H|apply atomic_run_destinations; exact H].
Qed.

(** C7: a key creation called without a file path ([None] or the empty
    string) writes the private half to the key's [keyid] joined to the
    current working directory, the public half to that path followed by
    [.pub], and returns that path. *)
Theorem default_filepath_is_cwd_keyid
    (E : Externals) fuel filepath bits password w pw :
  filepath = None \/ filepath = Some "" ->
  0 < fuel ->
  (forall key priv payload,
      rsa_creation_ready E w filepath bits password key priv pw payload ->
      let path := os_path_join (cwd w) (keyid key) in
      let w' :=
        final (generate_and_write_rsa_keypair E fuel filepath bits password)
          w in
      outcome (generate_and_write_rsa_keypair E fuel filepath bits password)
        w = Ret path /\
      files w' !! path = Some (encode_utf8 E payload) /\
      files w' !! (path ++ ".pub")
      = Some (encode_utf8 E (public (keyval key)))) /\
  (forall key encrypted,
      envelope_creation_ready E (generate_ed25519_key E) w filepath password
        key pw encrypted ->
      let path := os_path_join (cwd w) (keyid key) in
      let w' :=
        final (generate_and_write_ed25519_keypair E fuel filepath password)
          w in
      outcome (generate_and_write_ed25519_keypair E fuel filepath password)
        w = Ret path /\
      files w' !! path = Some (encode_utf8 E encrypted) /\
      files w' !! (path ++ ".pub")
      = Some (encode_utf8 E (json_dumps E (public_envelope key)))) /\
  (forall key encrypted,
      envelope_creation_ready E (generate_ecdsa_key E) w filepath password
        key pw encrypted ->
      let path := os_path_join (cwd w) (keyid key) in
      let w' :=
        final (generate_and_write_ecdsa_keypair E fuel filepath password)
          w in
      outcome (generate_and_write_ecdsa_keypair E fuel filepath password)
        w = Ret path /\
      files w' !! path = Some (encode_utf8 E encrypted) /\
      files w' !! (path ++ ".pub")
      = Some (encode_utf8 E (json_dumps E (public_envelope key)))).
Proof.
  intros Hfp Hfuel.
  assert (Hpath : forall key,
             effective_path w filepath key
             = os_path_join (cwd w) (keyid key)).
  { intros key. destruct Hfp as [-> | ->]; reflexivity. }
  split; [|split].
  - intros key priv payload Hready.
    pose proof (rsa_creation_success E fuel filepath bits password w key priv
                  pw payload Hready Hfuel) as H.
    cbv zeta in H. rewrite Hpath in H. destruct H as (Ho & Hfiles & _).
    cbv zeta. rewrite Hfiles, files_after_private, files_after_public.
    split; [exact Ho|split; reflexivity].
  - intros key encrypted Hready.
    pose proof (ed25519_creation_success E fuel filepath password w key pw
                  encrypted Hready Hfuel) as H.
    cbv zeta in H. rewrite Hpath in H. destruct H as (Ho & Hfiles & _).
    cbv zeta. rewrite Hfiles, files_after_private, files_after_public.
    split; [exact Ho|split; reflexivity].
  - intros key encrypted Hready.
    pose proof (ecdsa_creation_success E fuel filepath password w key pw
                  encrypted Hready Hfuel) as H.
    cbv zeta in H. rewrite Hpath in H. destruct H as (Ho & Hfiles & _).
    cbv zeta. rewrite Hfiles, files_after_private, files_after_public.
    split; [exact Ho|split; reflexivity].
Qed.

Lemma default_filepath_is_cwd_keyid_witness :
  let w := Toy.world ∅ [] in
  let w' :=
    final (generate_and_write_rsa_keypair Toy.externals 1 None 3072
             (Some "pw")) w in
  outcome (generate_and_write_rsa_keypair Toy.externals 1 None 3072
             (Some "pw")) w = Ret "/home/alice/1a2b3c" /\
  files w' !! "/home/alice/1a2b3c" = Some "pem<pw>PRIVATE" /\
  files w' !! "/home/alice/1a2b3c.pub" = Some "PUBLIC".
Proof.
  intros w.
  destruct (default_filepath_is_cwd_keyid Toy.externals 1 None 3072
              (Some "pw") w "pw") as (Hrsa & _).
  - left. reflexivity.
  - lia.
  - apply (Hrsa (Toy.key "rsa") "PRIVATE" "pem<pw>PRIVATE").
    repeat split; reflexivity.
Defined.

(** C6: when [encrypt_key] refuses the private half of an Ed25519 or ECDSA
    key, the call ends with the error of [encrypt_key]; by then the public
    half has been written to a temporary file and renamed to
    [<filepath>.pub], which holds the whole envelope, and the encryption was
    asked for after that rename; nothing has been renamed to [<filepath>],
    which holds what it held before the call. *)
Theorem public_half_survives_encryption_failure
    (E : Externals) fuel filepath password w key pw e :
  0 < fuel ->
  (envelope_encrypt_fails E (generate_ed25519_key E) w filepath password key
     pw e ->
   let path := effective_path w filepath key in
   let pub := encode_utf8 E (json_dumps E (public_envelope key)) in
   let w' :=
     final (generate_and_write_ed25519_keypair E fuel filepath password) w in
   outcome (generate_and_write_ed25519_keypair E fuel filepath password) w
   = Raise e /\
   actions w w'
   = [EvEnsureParentDir path;
      EvTempFile (next_temp w); EvWrite (next_temp w) pub;
      EvMove (next_temp w) (path ++ ".pub");
      EvTempFile (S (next_temp w)); EvEncryptKey key pw] /\
   files w' !! (path ++ ".pub") = Some pub /\
   files w' !! path = files w !! path) /\
  (envelope_encrypt_fails E (generate_ecdsa_key E) w filepath password key
     pw e ->
   let path := effective_path w filepath key in
   let pub := encode_utf8 E (json_dumps E (public_envelope key)) in
   let w' :=
     final (generate_and_write_ecdsa_keypair E fuel filepath password) w in
   outcome (generate_and_write_ecdsa_keypair E fuel filepath password) w
   = Raise e /\
   actions w w'
   = [EvEnsureParentDir path;
      EvTempFile (next_temp w); EvWrite (next_temp w) pub;
      EvMove (next_temp w) (path ++ ".pub");
      EvTempFile (S (next_temp w)); EvEncryptKey key pw] /\
   files w' !! (path ++ ".pub") = Some pub /\
   files w' !! path = files w !! path).
Proof.
  intros Hfuel. split; intros Hfails.
  - pose proof (ed25519_encrypt_failure E fuel filepath password w key pw e
                  Hfails Hfuel) as H.
    cbv zeta in H. destruct H as (Ho & Hfiles & Ha).
    cbv zeta. rewrite Hfiles, lookup_insert_eq.
    rewrite lookup_insert_ne by apply path_pub_neq.
    split; [exact Ho|split; [exact Ha|split; reflexivity]].
  - pose proof (ecdsa_encrypt_failure E fuel filepath password w key pw e
                  Hfails Hfuel) as H.
    cbv zeta in H. destruct H as (Ho & Hfiles & Ha).
    cbv zeta. rewrite Hfiles, lookup_insert_eq.
    rewrite lookup_insert_ne by apply path_pub_neq.
    split; [exact Ho|split; [exact Ha|split; reflexivity]].
Qed.

Lemma public_half_survives_encryption_failure_witness :
  let w := Toy.world ∅ [] in
  let w' :=
    final (generate_and_write_ed25519_keypair Toy.failing_externals 1
             (Some "k") (Some "pw")) w in
  outcome (generate_and_write_ed25519_keypair Toy.failing_externals 1
             (Some "k") (Some "pw")) w
  = Raise (CryptoError "cannot encrypt") /\
  files w' !! "k.pub" = Some (Toy.dumps (Toy.envelope "ed25519")) /\
  files w' !! "k" = None.
Proof.
  intros w.
  destruct (public_half_survives_encryption_failure Toy.failing_externals 1
              (Some "k") (Some "pw") w (Toy.key "ed25519") "pw"
              (CryptoError "cannot encrypt")) as [Hed _]; [lia|].
  destruct Hed as (Ho & _ & Hpub & Hpriv).
  - repeat split; reflexivity.
  - split; [exact Ho|split; [exact Hpub|exact Hpriv]].
Defined.

(** ** Supplied and absent passwords *)

(** C8: a password supplied to one of the six entry points, the empty
    string included, is the one the call works with, and nothing is asked of
    the terminal.  In every run with a supplied password no prompt is shown,
    no line is read, and no primitive is called with another password.  A
    creation that goes through writes the private half that the primitive
    makes with the supplied password, and an import that reaches the
    primitive returns what the primitive recovers with it.  With [None] as
    the password, a run that gets as far as the password shows the prompt of
    its entry point instead. *)
Theorem supplied_password_is_used_as_is
    (E : Externals) fuel cpath ipath bits sch w :
  (forall pw,
      used_as_is w
        (final (generate_and_write_rsa_keypair E fuel cpath bits (Some pw)) w)
        pw /\
      used_as_is w
        (final (generate_and_write_ed25519_keypair E fuel cpath (Some pw)) w)
        pw /\
      used_as_is w
        (final (generate_and_write_ecdsa_keypair E fuel cpath (Some pw)) w)
        pw /\
      used_as_is w
        (final (import_rsa_privatekey_from_file E fuel ipath (Some pw) sch) w)
        pw /\
      used_as_is w
        (final (import_ed25519_privatekey_from_file E fuel ipath (Some pw)) w)
        pw /\
      used_as_is w
        (final (import_ecdsa_privatekey_from_file E fuel ipath (Some pw)) w)
        pw) /\
  (0 < fuel ->
   forall pw,
     (forall key priv payload,
         rsa_creation_ready E w cpath bits (Some pw) key priv pw payload ->
         let w' :=
           final (generate_and_write_rsa_keypair E fuel cpath bits (Some pw))
             w in
         rsa_private_payload E priv pw = Ok payload /\
         files w' !! effective_path w cpath key
         = Some (encode_utf8 E payload) /\
         crypto_calls w w'
         = (if (String.length pw =? 0)%nat then []
            else [EvCreateRsaEncryptedPem priv pw])) /\
     (forall key encrypted,
         envelope_creation_ready E (generate_ed25519_key E) w cpath (Some pw)
           key pw encrypted ->
         let w' :=
           final (generate_and_write_ed25519_keypair E fuel cpath (Some pw))
             w in
         encrypt_key E key pw = Ok encrypted /\
         files w' !! effective_path w cpath key
         = Some (encode_utf8 E encrypted) /\
         crypto_calls w w' = [EvEncryptKey key pw]) /\
     (forall key encrypted,
         envelope_creation_ready E (generate_ecdsa_key E) w cpath (Some pw)
           key pw encrypted ->
         let w' :=
           final (generate_and_write_ecdsa_keypair E fuel cpath (Some pw))
             w in
         encrypt_key E key pw = Ok encrypted /\
         files w' !! effective_path w cpath key
         = Some (encode_utf8 E encrypted) /\
         crypto_calls w w' = [EvEncryptKey key pw]) /\
     (forall contents text,
         import_ready E w ipath (Some pw) pw contents text ->
         (RSA_SCHEME_SCHEMA_check_match E sch = Ok tt ->
          outcome
            (import_rsa_privatekey_from_file E fuel ipath (Some pw) sch) w
          = outcome_of
              (import_rsakey_from_private_pem E text sch
                 (rsa_import_password pw)) /\
          crypto_calls w
            (final
               (import_rsa_privatekey_from_file E fuel ipath (Some pw) sch)
               w)
          = [EvImportRsaPrivatePem text sch (rsa_import_password pw)]) /\
         (outcome
            (import_ed25519_privatekey_from_file E fuel ipath (Some pw)) w
          = checked_key E "ed25519" (decrypt_key E text pw) /\
          crypto_calls w
            (final
               (import_ed25519_privatekey_from_file E fuel ipath (Some pw))
               w)
          = [EvDecryptKey text pw]) /\
         (outcome
            (import_ecdsa_privatekey_from_file E fuel ipath (Some pw)) w
          = checked_key E "ecdsa-sha2-nistp256" (decrypt_key E text pw) /\
          crypto_calls w
            (final
               (import_ecdsa_privatekey_from_file E fuel ipath (Some pw))
               w)
          = [EvDecryptKey text pw]))) /\
  (0 < fuel ->
   forall line,
     (forall key priv payload,
         rsa_creation_ready E w cpath bits None key priv line payload ->
         prompts w
           (final (generate_and_write_rsa_keypair E fuel cpath bits None) w)
         = [EvGetpass (rsa_creation_prompt (effective_path w cpath key))]) /\
     (forall key encrypted,
         envelope_creation_ready E (generate_ed25519_key E) w cpath None key
           line encrypted ->
         prompts w
           (final (generate_and_write_ed25519_keypair E fuel cpath None) w)
         = [EvGetpass
              (ed25519_creation_prompt (effective_path w cpath key))]) /\
     (forall key encrypted,
         envelope_creation_ready E (generate_ecdsa_key E) w cpath None key
           line encrypted ->
         prompts w
           (final (generate_and_write_ecdsa_keypair E fuel cpath None) w)
         = [EvGetpass (ecdsa_creation_prompt (effective_path w cpath key))]) /\
     (forall contents text,
         import_ready E w ipath None line contents text ->
         (RSA_SCHEME_SCHEMA_check_match E sch = Ok tt ->
          prompts w
            (final (import_rsa_privatekey_from_file E fuel ipath None sch) w)
          = [EvGetpass (rsa_import_prompt ipath)]) /\
         prompts w
           (final (import_ed25519_privatekey_from_file E fuel ipath None) w)
         = [EvGetpass (ed25519_import_prompt ipath)] /\
         prompts w
           (final (import_ecdsa_privatekey_from_file E fuel ipath None) w)
         = [EvGetpass (ecdsa_import_prompt ipath)])).
Proof.
  split; [|split].
  - intros pw. unfold used_as_is.
    split; [|split; [|split; [|split; [|split]]]].
    + exact (proj2 (rsa_creation_runs E fuel cpath bits (Some pw) w) pw
               eq_refl).
    + exact (proj2 (ed25519_creation_runs E fuel cpath (Some pw) w) pw
               eq_refl).
    + exact (proj2 (ecdsa_creation_runs E fuel cpath (Some pw) w) pw eq_refl).
    + exact (proj2 (proj2 (proj2
               (rsa_import_runs E fuel ipath (Some pw) sch w))) pw eq_refl).
    + exact (proj2 (proj2 (proj2
               (ed25519_import_runs E fuel ipath (Some pw) w))) pw eq_refl).
    + exact (proj2 (proj2 (proj2
               (ecdsa_import_runs E fuel ipath (Some pw) w))) pw eq_refl).
  - intros Hfuel pw. split; [|split; [|split]].
    + intros key priv payload Hready.
      pose proof (rsa_creation_success E fuel cpath bits (Some pw) w key priv
                    pw payload Hready Hfuel) as H.
      cbv zeta in H. destruct H as (_ & Hfiles & _ & Hc & _).
      destruct Hready as (_ & _ & _ & _ & _ & _ & Hpay & _).
      cbv zeta. rewrite Hfiles, files_after_private.
      split; [exact Hpay|split; [reflexivity|exact Hc]].
    + intros key encrypted Hready.
      pose proof (ed25519_creation_success E fuel cpath (Some pw) w key pw
                    encrypted Hready Hfuel) as H.
      cbv zeta in H. destruct H as (_ & Hfiles & _ & Hc & _).
      destruct Hready as (_ & _ & _ & _ & Henc & _).
      cbv zeta. rewrite Hfiles, files_after_private.
      split; [exact Henc|split; [reflexivity|exact Hc]].
    + intros key encrypted Hready.
      pose proof (ecdsa_creation_success E fuel cpath (Some pw) w key pw
                    encrypted Hready Hfuel) as H.
      cbv zeta in H. destruct H as (_ & Hfiles & _ & Hc & _).
      destruct Hready as (_ & _ & _ & _ & Henc & _).
      cbv zeta. rewrite Hfiles, files_after_private.
      split; [exact Henc|split; [reflexivity|exact Hc]].
    + intros contents text Hready. split; [|split].
      * intros Hsch.
        pose proof (rsa_import_run E fuel ipath (Some pw) sch w pw contents
                      text Hready Hfuel Hsch) as H.
        cbv zeta in H. destruct H as (Ho & Hc & _).
        split; [exact Ho|exact Hc].
      * pose proof (ed25519_import_run E fuel ipath (Some pw) w pw contents
                      text Hready Hfuel) as H.
        cbv zeta in H. destruct H as (Ho & Hc & _).
        split; [exact Ho|exact Hc].
      * pose proof (ecdsa_import_run E fuel ipath (Some pw) w pw contents
                      text Hready Hfuel) as H.
        cbv zeta in H. destruct H as (Ho & Hc & _).
        split; [exact Ho|exact Hc].
  - intros Hfuel line. split; [|split; [|split]].
    + intros key priv payload Hready.
      apply (rsa_creation_success E fuel cpath bits None w key priv line
               payload Hready Hfuel).
    + intros key encrypted Hready.
      apply (ed25519_creation_success E fuel cpath None w key line encrypted
               Hready Hfuel).
    + intros key encrypted Hready.
      apply (ecdsa_creation_success E fuel cpath None w key line encrypted
               Hready Hfuel).
    + intros contents text Hready. split; [|split].
      * intros Hsch.
        apply (rsa_import_run E fuel ipath None sch w line contents text
                 Hready Hfuel Hsch).
      * apply (ed25519_import_run E fuel ipath None w line contents text
                 Hready Hfuel).
      * apply (ecdsa_import_run E fuel ipath None w line contents text
                 Hready Hfuel).
Qed.

Lemma supplied_password_is_used_as_is_witness :
  let w := Toy.world {["k" := "enc<>ed25519"]} ["typed"] in
  (prompts w
     (final (import_ed25519_privatekey_from_file Toy.externals 1 "k"
               (Some "")) w) = [] /\
   crypto_calls w
     (final (import_ed25519_privatekey_from_file Toy.externals 1 "k"
               (Some "")) w) = [EvDecryptKey "enc<>ed25519" ""] /\
   outcome (import_ed25519_privatekey_from_file Toy.externals 1 "k"
              (Some "")) w
   = Ret (set_keyid_hash_algorithms (Toy.key "ed25519")
            ["sha256"; "sha512"])) /\
  (let w' :=
     final (generate_and_write_ed25519_keypair Toy.externals 1 (Some "n")
              (Some "")) w in
   files w' !! "n" = Some "enc<>ed25519" /\
   crypto_calls w w' = [EvEncryptKey (Toy.key "ed25519") ""]) /\
  prompts w
    (final (import_ed25519_privatekey_from_file Toy.externals 1 "k" None) w)
  = [EvGetpass (ed25519_import_prompt "k")].
Proof.
  intros w.
  destruct (supplied_password_is_used_as_is Toy.externals 1 (Some "n") "k"
              3072 "rsassa-pss-sha256" w) as (Hsome & Hused & Hnone).
  split; [|split].
  - destruct (Hsome "") as (_ & _ & _ & _ & (Hp & _) & _).
    destruct (Hused ltac:(lia) "") as (_ & _ & _ & Himp).
    destruct (Himp "enc<>ed25519" "enc<>ed25519") as (_ & (Ho & Hc) & _).
    + repeat split; reflexivity.
    + split; [exact Hp|split; [exact Hc|exact Ho]].
  - destruct (Hused ltac:(lia) "") as (_ & Hed & _).
    destruct (Hed (Toy.key "ed25519") "enc<>ed25519") as (_ & Hf & Hc).
    + repeat split; reflexivity.
    + split; [exact Hf|exact Hc].
  - destruct (Hnone ltac:(lia) "typed") as (_ & _ & _ & Himp).
    destruct (Himp "enc<>ed25519" "enc<>ed25519") as (_ & Hed & _).
    + repeat split; reflexivity.
    + exact Hed.
Defined.

(** ** The public artifact *)

(** C10: in every run of a key creation, [<filepath>.pub] holds what it
    held before the call or the public payload, and once the call has
    returned it holds the public payload: the public PEM string of an RSA
    key, and for an Ed25519 or ECDSA key the serialized envelope made of the
    key type, the scheme and, under [keyval], the public part alone. *)
Theorem public_file_has_no_private_material
    (E : Externals) fuel filepath bits password w pw :
  (forall key,
      generate_rsa_key E bits = Ok key ->
      let path := effective_path w filepath key in
      let pub := encode_utf8 E (public (keyval key)) in
      let w' :=
        final (generate_and_write_rsa_keypair E fuel filepath bits password)
          w in
      (files w' !! (path ++ ".pub") = files w !! (path ++ ".pub") \/
       files w' !! (path ++ ".pub") = Some pub) /\
      (forall priv payload,
          rsa_creation_ready E w filepath bits password key priv pw payload ->
          0 < fuel ->
          files w' !! (path ++ ".pub") = Some pub)) /\
  (forall key,
      generate_ed25519_key E = Ok key ->
      let path := effective_path w filepath key in
      let pub :=
        encode_utf8 E
          (json_dumps E
             (JObj [("keytype", JStr (keytype key));
                    ("scheme", JStr (scheme key));
                    ("keyval",
                     JObj [("public", JStr (public (keyval key)))])])) in
      let w' :=
        final (generate_and_write_ed25519_keypair E fuel filepath password)
          w in
      (files w' !! (path ++ ".pub") = files w !! (path ++ ".pub") \/
       files w' !! (path ++ ".pub") = Some pub) /\
      (forall encrypted,
          envelope_creation_ready E (generate_ed25519_key E) w filepath
            password key pw encrypted ->
          0 < fuel ->
          files w' !! (path ++ ".pub") = Some pub)) /\
  (forall key,
      generate_ecdsa_key E = Ok key ->
      let path := effective_path w filepath key in
      let pub :=
        encode_utf8 E
          (json_dumps E
             (JObj [("keytype", JStr (keytype key));
                    ("scheme", JStr (scheme key));
                    ("keyval",
                     JObj [("public", JStr (public (keyval key)))])])) in
      let w' :=
        final (generate_and_write_ecdsa_keypair E fuel filepath password)
          w in
      (files w' !! (path ++ ".pub") = files w !! (path ++ ".pub") \/
       files w' !! (path ++ ".pub") = Some pub) /\
      (forall encrypted,
          envelope_creation_ready E (generate_ecdsa_key E) w filepath
            password key pw encrypted ->
          0 < fuel ->
          files w' !! (path ++ ".pub") = Some pub)).
Proof.
  split; [|split]; intros key Hgen; cbv zeta; split.
  - pose proof (rsa_creation_runs E fuel filepath bits password w) as H.
    cbv zeta in H. destruct H as [H _]. rewrite Hgen in H.
    destruct (atomic_run_destinations _ _ _ _ _ H
                (effective_path w filepath key ++ ".pub"))
      as [Hq|[[_ Hq]|[Hq _]]].
    + left. exact Hq.
    + right. exact Hq.
    + exfalso. exact (path_pub_neq _ Hq).
  - intros priv payload Hready Hfuel.
    pose proof (rsa_creation_success E fuel filepath bits password w key priv
                  pw payload Hready Hfuel) as H.
    cbv zeta in H. destruct H as (_ & Hfiles & _).
    rewrite Hfiles. apply files_after_public.
  - pose proof (ed25519_creation_runs E fuel filepath password w) as H.
    cbv zeta in H. destruct H as [H _]. rewrite Hgen in H.
    destruct (atomic_run_destinations _ _ _ _ _ H
                (effective_path w filepath key ++ ".pub"))
      as [Hq|[[_ Hq]|[Hq _]]].
    + left. exact Hq.
    + right. exact Hq.
    + exfalso. exact (path_pub_neq _ Hq).
  - intros encrypted Hready Hfuel.
    pose proof (ed25519_creation_success E fuel filepath password w key pw
                  encrypted Hready Hfuel) as H.
    cbv zeta in H. destruct H as (_ & Hfiles & _).
    rewrite Hfiles. apply files_after_public.
  - pose proof (ecdsa_creation_runs E fuel filepath password w) as H.
    cbv zeta in H. destruct H as [H _]. rewrite Hgen in H.
    destruct (atomic_run_destinations _ _ _ _ _ H
                (effective_path w filepath key ++ ".pub"))
      as [Hq|[[_ Hq]|[Hq _]]].
    + left. exact Hq.
    + right. exact Hq.
    + exfalso. exact (path_pub_neq _ Hq).
  - intros encrypted Hready Hfuel.
    pose proof (ecdsa_creation_success E fuel filepath password w key pw
                  encrypted Hready Hfuel) as H.
    cbv zeta in H. destruct H as (_ & Hfiles & _).
    rewrite Hfiles. apply files_after_public.
Qed.

Lemma public_file_has_no_private_material_witness :
  let w := Toy.world ∅ [] in
  let w' :=
    final (generate_and_write_ed25519_keypair Toy.externals 1 (Some "k")
             (Some "pw")) w in
  files w' !! "k.pub" = Some (Toy.dumps (Toy.envelope "ed25519")).
Proof.
  intros w.
  destruct (public_file_has_no_private_material Toy.externals 1 (Some "k")
              3072 (Some "pw") w "pw") as (_ & Hed & _).
  destruct (Hed (Toy.key "ed25519") eq_refl) as [_ Hdone].
  apply (Hdone "enc<pw>ed25519"); [repeat split; reflexivity|lia].
Defined.

(** * Further properties of the code *)

(** ** What an import leaves alone *)

(** X1: no run of a private-key import changes a file, creates a
    directory or leaves a temporary file behind, whatever the password, the
    terminal and the primitives do. *)
Theorem private_imports_only_read
    (E : Externals) fuel filepath password sch w :
  (let w' :=
     final (import_rsa_privatekey_from_file E fuel filepath password sch) w in
   files w' = files w /\ dirs w' = dirs w /\ temps w' = temps w) /\
  (let w' :=
     final (import_ed25519_privatekey_from_file E fuel filepath password) w in
   files w' = files w /\ dirs w' = dirs w /\ temps w' = temps w) /\
  (let w' :=
     final (import_ecdsa_privatekey_from_file E fuel filepath password) w in
   files w' = files w /\ dirs w' = dirs w /\ temps w' = temps w).
Proof.
  split; [|split]; cbv zeta.
  - pose proof (rsa_import_runs E fuel filepath password sch w) as H.
    cbv zeta in H. destruct H as (Hf & Hd & Ht & _). auto.
  - pose proof (ed25519_import_runs E fuel filepath password w) as H.
    cbv zeta in H. destruct H as (Hf & Hd & Ht & _). auto.
  - pose proof (ecdsa_import_runs E fuel filepath password w) as H.
    cbv zeta in H. destruct H as (Hf & Hd & Ht & _). auto.
Qed.

Ltac public_import_runs :=
  match goal with w : World |- _ => open_world w end;
  name_run; exec_all; end_run; norm_events; (split_all; reflexivity).

(** X2: no run of a public-key import asks anything of the terminal, calls
    a cryptographic primitive on a password, or changes the file system. *)
Theorem public_imports_only_read (E : Externals) filepath w :
  (let w' := final (import_rsa_publickey_from_file E filepath) w in
   prompts w w' = [] /\ stdin_pos w' = stdin_pos w /\
   crypto_calls w w' = [] /\
   files w' = files w /\ dirs w' = dirs w /\ temps w' = temps w) /\
  (let w' := final (import_ed25519_publickey_from_file E filepath) w in
   prompts w w' = [] /\ stdin_pos w' = stdin_pos w /\
   crypto_calls w w' = [] /\
   files w' = files w /\ dirs w' = dirs w /\ temps w' = temps w) /\
  (let w' := final (import_ecdsa_publickey_from_file E filepath) w in
   prompts w w' = [] /\ stdin_pos w' = stdin_pos w /\
   crypto_calls w w' = [] /\
   files w' = files w /\ dirs w' = dirs w /\ temps w' = temps w).
Proof. split; [|split]; public_import_runs. Qed.

(** ** Arguments are checked first *)

(** X3: an import whose path the path schema refuses ends with the error
    of the schema before anything else happens: no prompt is shown, no file
    is opened, and the world is as it was. *)
Theorem imports_check_the_path_first
    (E : Externals) fuel filepath password sch w e :
  PATH_SCHEMA_check_match E filepath = Err e ->
  import_rsa_privatekey_from_file E fuel filepath password sch w
  = (Raise e, w) /\
  import_ed25519_privatekey_from_file E fuel filepath password w
  = (Raise e, w) /\
  import_ecdsa_privatekey_from_file E fuel filepath password w
  = (Raise e, w) /\
  import_rsa_publickey_from_file E filepath w = (Raise e, w) /\
  import_ed25519_publickey_from_file E filepath w = (Raise e, w) /\
  import_ecdsa_publickey_from_file E filepath w = (Raise e, w).
Proof. intros H. split_all; exec_known; reflexivity. Qed.

Lemma imports_check_the_path_first_witness :
  import_ed25519_privatekey_from_file Toy.strict_externals 1 "" None
    (Toy.world ∅ ["typed"])
  = (Raise (FormatError "path"), Toy.world ∅ ["typed"]).
Proof.
  apply (imports_check_the_path_first Toy.strict_externals 1 "" None
           "rsassa-pss-sha256" (Toy.world ∅ ["typed"]) (FormatError "path")).
  reflexivity.
Defined.

(** X4: an RSA key creation whose number of bits the schema refuses ends
    with the error of the schema before a key is generated, a prompt shown
    or a file touched: the world is as it was. *)
Theorem rsa_creation_checks_the_bits_first
    (E : Externals) fuel filepath bits password w e :
  RSAKEYBITS_SCHEMA_check_match E bits = Err e ->
  generate_and_write_rsa_keypair E fuel filepath bits password w
  = (Raise e, w).
Proof. intros H. exec_known. reflexivity. Qed.

Lemma rsa_creation_checks_the_bits_first_witness :
  generate_and_write_rsa_keypair Toy.externals 1 (Some "k") 1024 None
    (Toy.world ∅ ["typed"])
  = (Raise (FormatError "bits"), Toy.world ∅ ["typed"]).
Proof.
  apply (rsa_creation_checks_the_bits_first Toy.externals 1 (Some "k") 1024
           None (Toy.world ∅ ["typed"]) (FormatError "bits")).
  reflexivity.
Defined.

(** ** Importing what is not there *)

Ltac missing_file :=
  match goal with w : World |- _ => open_world w end;
  match goal with H : resolves _ _ _ |- _ => run_in H end;
  match goal with H : fault _ = None |- _ => run_in H; subst end;
  match goal with H : files _ !! _ = None |- _ => run_in H end;
  match goal with fuel : nat |- _ => destruct fuel; [lia|] end;
  match goal with password : option string |- _ => destruct password end;
  subst; name_run; exec_known; end_run; norm_events;
  (split_all; first [reflexivity | eexists; reflexivity]).

(** X5: a private-key import of a path at which there is no file ends with
    an I/O error without calling a primitive; the password is asked for
    before the file is looked for, so that with [None] as the password the
    prompt is shown and a line is read all the same. *)
Theorem private_import_of_missing_file
    (E : Externals) fuel filepath password sch w pw :
  PATH_SCHEMA_check_match E filepath = Ok tt ->
  resolves w password pw ->
  PASSWORD_SCHEMA_check_match E pw = Ok tt ->
  files w !! filepath = None ->
  fault w = None ->
  0 < fuel ->
  (RSA_SCHEME_SCHEMA_check_match E sch = Ok tt ->
   let w' :=
     final (import_rsa_privatekey_from_file E fuel filepath password sch) w in
   (exists msg,
       outcome (import_rsa_privatekey_from_file E fuel filepath password sch)
         w = Raise (IOError msg)) /\
   crypto_calls w w' = [] /\
   prompts w w' = expected_prompts password (rsa_import_prompt filepath)) /\
  (let w' :=
     final (import_ed25519_privatekey_from_file E fuel filepath password) w in
   (exists msg,
       outcome (import_ed25519_privatekey_from_file E fuel filepath password)
         w = Raise (IOError msg)) /\
   crypto_calls w w' = [] /\
   prompts w w' = expected_prompts password (ed25519_import_prompt filepath)) /\
  (let w' :=
     final (import_ecdsa_privatekey_from_file E fuel filepath password) w in
   (exists msg,
       outcome (import_ecdsa_privatekey_from_file E fuel filepath password)
         w = Raise (IOError msg)) /\
   crypto_calls w w' = [] /\
   prompts w w' = expected_prompts password (ecdsa_import_prompt filepath)).
Proof.
  intros Hpath Hres Hpw Hfile Hflt Hfuel.
  split; [intros Hsch|split]; missing_file.
Qed.

Lemma private_import_of_missing_file_witness :
  let w := Toy.world ∅ ["typed"] in
  let w' :=
    final (import_ecdsa_privatekey_from_file Toy.externals 1 "k" None) w in
  (exists msg,
      outcome (import_ecdsa_privatekey_from_file Toy.externals 1 "k" None) w
      = Raise (IOError msg)) /\
  crypto_calls w w' = [] /\
  prompts w w' = [EvGetpass (ecdsa_import_prompt "k")].
Proof.
  intros w.
  destruct (private_import_of_missing_file Toy.externals 1 "k" None
              "rsassa-pss-sha256" w "typed") as (_ & _ & Hecdsa);
    first [reflexivity | lia | exact Hecdsa].
Defined.

(** ** The public-key imports *)

(** X6: once the path is accepted and the file read, the RSA public-key
    import returns the key that the PEM import returns; a format error of
    the PEM import comes out as an [Error] whose message quotes it, never as
    a format error, and any other error comes out as it is. *)
Theorem rsa_public_import_result (E : Externals) filepath w contents text :
  PATH_SCHEMA_check_match E filepath = Ok tt ->
  files w !! filepath = Some contents ->
  decode_utf8 E contents = Ok text ->
  fault w = None ->
  (forall key,
      import_rsakey_from_public_pem E text = Ok key ->
      outcome (import_rsa_publickey_from_file E filepath) w = Ret key) /\
  (forall msg,
      import_rsakey_from_public_pem E text = Err (FormatError msg) ->
      outcome (import_rsa_publickey_from_file E filepath) w
      = Raise (Error ("Cannot import improperly formatted PEM file."
                      ++ repr E msg))) /\
  (forall e,
      import_rsakey_from_public_pem E text = Err e ->
      (forall msg, e <> FormatError msg) ->
      outcome (import_rsa_publickey_from_file E filepath) w = Raise e) /\
  (forall msg,
      outcome (import_rsa_publickey_from_file E filepath) w
      <> Raise (FormatError msg)).
Proof.
  intros Hpath Hfile Hdec Hflt. open_world w. run_in Hfile. run_in Hflt.
  subst. split_all.
  - intros key Hkey. name_run. exec_known. end_run. reflexivity.
  - intros msg Hkey. name_run. exec_known. end_run. reflexivity.
  - intros e Hkey Hne. name_run. exec_known. end_run.
    destruct e; try reflexivity. exfalso. exact (Hne _ eq_refl).
  - intros msg. name_run. exec_all; end_run; discriminate.
Qed.

Lemma rsa_public_import_result_witness :
  outcome (import_rsa_publickey_from_file Toy.externals "k.pub")
    (Toy.world {["k.pub" := "garbage"]} [])
  = Raise (Error "Cannot import improperly formatted PEM file.'not a PEM'").
Proof.
  destruct (rsa_public_import_result Toy.externals "k.pub"
              (Toy.world {["k.pub" := "garbage"]} []) "garbage" "garbage")
    as (_ & Hformat & _); [reflexivity ..|].
  apply (Hformat "not a PEM"). reflexivity.
Defined.

(** X7: the Ed25519 and ECDSA public-key imports compare the key type of
    the key read with their own: a different one raises a format error that
    names the type found; the same one returns the key as the metadata
    conversion gave it, with no hash algorithms attached to it. *)
Theorem public_import_keytype_validation
    (E : Externals) filepath w j key ids :
  PATH_SCHEMA_check_match E filepath = Ok tt ->
  load_json_file E (files w) filepath = Ok j ->
  format_metadata_to_key E j = Ok (key, ids) ->
  outcome (import_ed25519_publickey_from_file E filepath) w
  = (if String.eqb (keytype key) "ed25519" then Ret key
     else Raise (FormatError ("Invalid key type loaded: "
                              ++ repr E (keytype key)))) /\
  outcome (import_ecdsa_publickey_from_file E filepath) w
  = (if String.eqb (keytype key) "ecdsa-sha2-nistp256" then Ret key
     else Raise (FormatError ("Invalid key type loaded: "
                              ++ repr E (keytype key)))).
Proof.
  intros Hpath Hload Hkey. open_world w. run_in Hload.
  split; name_run; exec_all; end_run; reflexivity.
Qed.

Lemma public_import_keytype_validation_witness :
  let w :=
    Toy.world {["k.pub" := Toy.dumps (Toy.envelope "ed25519")]} [] in
  outcome (import_ed25519_publickey_from_file Toy.externals "k.pub") w
  = Ret (mkKey "ed25519" "toy-scheme" "1a2b3c" (mkKeyVal "PUBLIC" None) None)
  /\
  outcome (import_ecdsa_publickey_from_file Toy.externals "k.pub") w
  = Raise (FormatError "Invalid key type loaded: 'ed25519'").
Proof.
  intros w.
  apply (public_import_keytype_validation Toy.externals "k.pub" w
           (Toy.envelope "ed25519")
           (mkKey "ed25519" "toy-scheme" "1a2b3c" (mkKeyVal "PUBLIC" None)
              None)
           ["1a2b3c"]); reflexivity.
Defined.

(** ** Writing a key, then reading it back *)

(** Follow a run whose calls are known, through the contents of the
    temporary files. *)
Ltac exec_trip :=
  repeat first [step_known | rewrite append_empty_l]; run.

Ltac envelope_trip :=
  match goal with w : World |- _ => open_world w end;
  match goal with H : envelope_creation_ready _ _ _ _ _ _ _ _ |- _ =>
    run_in H; destruct H as (Hgen & Hpath & Hres & Hpw & Henc & Hf)
  end;
  subst;
  match goal with fuel : nat |- _ => destruct fuel; [lia|] end;
  match goal with
  | filepath : option string, password : option string |- _ =>
      destruct (not_ filepath) eqn:Hfp; destruct password
  end;
  subst; name_run; exec_trip; end_run; reflexivity.

(** X8: an Ed25519 key written by [generate_and_write_ed25519_keypair] and
    read back from the path it returns by
    [import_ed25519_privatekey_from_file], with the password it was written
    with, is the generated key with the hash algorithms attached, as long as
    decryption undoes encryption and decoding undoes encoding. *)
Theorem ed25519_private_round_trip
    (E : Externals) fuel filepath password w key pw encrypted :
  envelope_creation_ready E (generate_ed25519_key E) w filepath password key
    pw encrypted ->
  0 < fuel ->
  decode_utf8 E (encode_utf8 E encrypted) = Ok encrypted ->
  decrypt_key E encrypted pw = Ok key ->
  String.eqb (keytype key) "ed25519" = true ->
  outcome
    (path <~ generate_and_write_ed25519_keypair E fuel filepath password ;;
     import_ed25519_privatekey_from_file E fuel path (Some pw)) w
  = Ret (set_keyid_hash_algorithms key (HASH_ALGORITHMS E)).
Proof. intros Hready Hfuel Hdecode Hdecrypt Hkt. envelope_trip. Qed.

Lemma ed25519_private_round_trip_witness :
  outcome
    (path <~ generate_and_write_ed25519_keypair Toy.externals 1 None None ;;
     import_ed25519_privatekey_from_file Toy.externals 1 path (Some "typed"))
    (Toy.world ∅ ["typed"])
  = Ret (set_keyid_hash_algorithms (Toy.key "ed25519") ["sha256"; "sha512"]).
Proof.
  apply (ed25519_private_round_trip Toy.externals 1 None None
           (Toy.world ∅ ["typed"]) (Toy.key "ed25519") "typed"
           "enc<typed>ed25519");
    first [lia | repeat split; reflexivity].
Defined.

(** X9: the same for an ECDSA key, written by
    [generate_and_write_ecdsa_keypair] and read back by
    [import_ecdsa_privatekey_from_file]. *)
Theorem ecdsa_private_round_trip
    (E : Externals) fuel filepath password w key pw encrypted :
  envelope_creation_ready E (generate_ecdsa_key E) w filepath password key
    pw encrypted ->
  0 < fuel ->
  decode_utf8 E (encode_utf8 E encrypted) = Ok encrypted ->
  decrypt_key E encrypted pw = Ok key ->
  String.eqb (keytype key) "ecdsa-sha2-nistp256" = true ->
  outcome
    (path <~ generate_and_write_ecdsa_keypair E fuel filepath password ;;
     import_ecdsa_privatekey_from_file E fuel path (Some pw)) w
  = Ret (set_keyid_hash_algorithms key (HASH_ALGORITHMS E)).
Proof. intros Hready Hfuel Hdecode Hdecrypt Hkt. envelope_trip. Qed.

Lemma ecdsa_private_round_trip_witness :
  outcome
    (path <~ generate_and_write_ecdsa_keypair Toy.externals 1 (Some "k")
               (Some "pw") ;;
     import_ecdsa_privatekey_from_file Toy.externals 1 path (Some "pw"))
    (Toy.world ∅ [])
  = Ret (set_keyid_hash_algorithms (Toy.key "ecdsa-sha2-nistp256")
           ["sha256"; "sha512"]).
Proof.
  apply (ecdsa_private_round_trip Toy.externals 1 (Some "k") (Some "pw")
           (Toy.world ∅ []) (Toy.key "ecdsa-sha2-nistp256") "pw"
           "enc<pw>ecdsa-sha2-nistp256");
    first [lia | repeat split; reflexivity].
Defined.

(** X10: an RSA key written by [generate_and_write_rsa_keypair] and read
    back from the path it returns by [import_rsa_privatekey_from_file], with
    the password it was written with, is what the PEM import makes of the
    payload written: the plaintext PEM read with no password when the
    password is empty, the encrypted PEM read with the password when it is
    not. *)
Theorem rsa_private_round_trip
    (E : Externals) fuel filepath bits password sch w key priv pw payload :
  rsa_creation_ready E w filepath bits password key priv pw payload ->
  0 < fuel ->
  decode_utf8 E (encode_utf8 E payload) = Ok payload ->
  RSA_SCHEME_SCHEMA_check_match E sch = Ok tt ->
  outcome
    (path <~ generate_and_write_rsa_keypair E fuel filepath bits password ;;
     import_rsa_privatekey_from_file E fuel path (Some pw) sch) w
  = outcome_of
      (import_rsakey_from_private_pem E payload sch (rsa_import_password pw))
  /\
  (String.length pw = 0 ->
   payload = priv /\ rsa_import_password pw = None) /\
  (String.length pw <> 0 ->
   create_rsa_encrypted_pem E priv pw = Ok payload /\
   rsa_import_password pw = Some pw).
Proof.
  intros Hready Hfuel Hdecode Hsch. split.
  - open_world w. run_in Hready.
    destruct Hready as (Hbits & Hgen & Hpriv & Hpath & Hres & Hpw & Hpay & Hf).
    subst flt. destruct fuel as [|fuel]; [lia|].
    unfold rsa_private_payload in Hpay.
    unfold rsa_import_password, outcome_of.
    destruct (not_ filepath) eqn:Hfp; destruct password as [p|]; try subst p;
      destruct (String.length pw =? 0)%nat eqn:Hlen; cbn [negb] in Hpay;
      try (injection Hpay as <-);
      name_run; exec_trip; exec_all; end_run; reflexivity.
  - destruct Hready as (_ & _ & _ & _ & _ & _ & Hpay & _).
    unfold rsa_private_payload, rsa_import_password in *.
    split; intros Hlen.
    + rewrite Hlen in *. cbn in *. injection Hpay as <-. split; reflexivity.
    + apply Nat.eqb_neq in Hlen. rewrite Hlen in *. cbn in *.
      split; [exact Hpay|reflexivity].
Qed.

Lemma rsa_private_round_trip_witness :
  outcome
    (path <~ generate_and_write_rsa_keypair Toy.externals 1 (Some "k") 3072
               (Some "pw") ;;
     import_rsa_privatekey_from_file Toy.externals 1 path (Some "pw")
       "rsassa-pss-sha256")
    (Toy.world ∅ [])
  = Ret (Toy.rsa_key "pem<pw>PRIVATE").
Proof.
  destruct (rsa_private_round_trip Toy.externals 1 (Some "k") 3072
              (Some "pw") "rsassa-pss-sha256" (Toy.world ∅ [])
              (Toy.key "rsa") "PRIVATE" "pw" "pem<pw>PRIVATE")
    as (Ho & _); [repeat split; reflexivity|lia|reflexivity ..|].
  exact Ho.
Defined.

Ltac public_trip Hpub Hload :=
  match goal with w : World |- _ => open_world w end;
  match goal with H : envelope_creation_ready _ _ _ _ _ _ _ _ |- _ =>
    run_in H; destruct H as (Hgen & Hpath & Hres & Hpw & Henc & Hf)
  end;
  run_in Hpub; run_in Hload; subst;
  match goal with fuel : nat |- _ => destruct fuel; [lia|] end;
  match goal with
  | filepath : option string, password : option string |- _ =>
      destruct (not_ filepath) eqn:Hfp; destruct password
  end;
  subst; name_run; exec_trip;
  (rewrite Hload
     by (rewrite lookup_insert_ne by apply path_neq_pub;
         apply lookup_insert_eq));
  exec_trip; end_run; reflexivity.

(** X11: the public half written by [generate_and_write_ed25519_keypair],
    read back from [<filepath>.pub] by [import_ed25519_publickey_from_file],
    is the key that the metadata conversion makes of the envelope of the
    generated key, as long as the JSON reader gives back the envelope that
    was serialized. *)
Theorem ed25519_public_round_trip
    (E : Externals) fuel filepath password w key pw encrypted pubkey ids :
  envelope_creation_ready E (generate_ed25519_key E) w filepath password key
    pw encrypted ->
  0 < fuel ->
  PATH_SCHEMA_check_match E (effective_path w filepath key ++ ".pub")
  = Ok tt ->
  (forall fs,
      fs !! (effective_path w filepath key ++ ".pub")
      = Some (encode_utf8 E (json_dumps E (public_envelope key))) ->
      load_json_file E fs (effective_path w filepath key ++ ".pub")
      = Ok (public_envelope key)) ->
  format_metadata_to_key E (public_envelope key) = Ok (pubkey, ids) ->
  String.eqb (keytype pubkey) "ed25519" = true ->
  outcome
    (path <~ generate_and_write_ed25519_keypair E fuel filepath password ;;
     import_ed25519_publickey_from_file E (path ++ ".pub")) w
  = Ret pubkey.
Proof. intros Hready Hfuel Hpub Hload Hmeta Hkt. public_trip Hpub Hload. Qed.

Lemma ed25519_public_round_trip_witness :
  outcome
    (path <~ generate_and_write_ed25519_keypair Toy.externals 1 (Some "k")
               (Some "pw") ;;
     import_ed25519_publickey_from_file Toy.externals (path ++ ".pub"))
    (Toy.world ∅ [])
  = Ret (Toy.public_key "ed25519").
Proof.
  apply (ed25519_public_round_trip Toy.externals 1 (Some "k") (Some "pw")
           (Toy.world ∅ []) (Toy.key "ed25519") "pw" "enc<pw>ed25519"
           (Toy.public_key "ed25519") ["1a2b3c"]);
    first [ lia
          | intros fs Hfs; cbn; unfold Toy.load; cbn in Hfs; rewrite Hfs;
            reflexivity
          | repeat split; reflexivity ].
Defined.

(** X12: the same for the public half written by
    [generate_and_write_ecdsa_keypair] and read back by
    [import_ecdsa_publickey_from_file]. *)
Theorem ecdsa_public_round_trip
    (E : Externals) fuel filepath password w key pw encrypted pubkey ids :
  envelope_creation_ready E (generate_ecdsa_key E) w filepath password key
    pw encrypted ->
  0 < fuel ->
  PATH_SCHEMA_check_match E (effective_path w filepath key ++ ".pub")
  = Ok tt ->
  (forall fs,
      fs !! (effective_path w filepath key ++ ".pub")
      = Some (encode_utf8 E (json_dumps E (public_envelope key))) ->
      load_json_file E fs (effective_path w filepath key ++ ".pub")
      = Ok (public_envelope key)) ->
  format_metadata_to_key E (public_envelope key) = Ok (pubkey, ids) ->
  String.eqb (keytype pubkey) "ecdsa-sha2-nistp256" = true ->
  outcome
    (path <~ generate_and_write_ecdsa_keypair E fuel filepath password ;;
     import_ecdsa_publickey_from_file E (path ++ ".pub")) w
  = Ret pubkey.
Proof. intros Hready Hfuel Hpub Hload Hmeta Hkt. public_trip Hpub Hload. Qed.

Lemma ecdsa_public_round_trip_witness :
  outcome
    (path <~ generate_and_write_ecdsa_keypair Toy.externals 1 (Some "k")
               (Some "pw") ;;
     import_ecdsa_publickey_from_file Toy.externals (path ++ ".pub"))
    (Toy.world ∅ [])
  = Ret (Toy.public_key "ecdsa-sha2-nistp256").
Proof.
  apply (ecdsa_public_round_trip Toy.externals 1 (Some "k") (Some "pw")
           (Toy.world ∅ []) (Toy.key "ecdsa-sha2-nistp256") "pw"
           "enc<pw>ecdsa-sha2-nistp256"
           (Toy.public_key "ecdsa-sha2-nistp256") ["1a2b3c"]);
    first [ lia
          | intros fs Hfs; cbn; unfold Toy.load; cbn in Hfs; rewrite Hfs;
            reflexivity
          | repeat split; reflexivity ].
Defined.

(** X13: the public half written by [generate_and_write_rsa_keypair], read
    back from [<filepath>.pub] by [import_rsa_publickey_from_file], is the
    key that the PEM import makes of the public PEM of the generated key, as
    long as decoding undoes encoding. *)
Theorem rsa_public_round_trip
    (E : Externals) fuel filepath bits password w key priv pw payload pubkey :
  rsa_creation_ready E w filepath bits password key priv pw payload ->
  0 < fuel ->
  PATH_SCHEMA_check_match E (effective_path w filepath key ++ ".pub")
  = Ok tt ->
  decode_utf8 E (encode_utf8 E (public (keyval key)))
  = Ok (public (keyval key)) ->
  import_rsakey_from_public_pem E (public (keyval key)) = Ok pubkey ->
  outcome
    (path <~ generate_and_write_rsa_keypair E fuel filepath bits password ;;
     import_rsa_publickey_from_file E (path ++ ".pub")) w
  = Ret pubkey.
Proof.
  intros Hready Hfuel Hpubpath Hdecode Hpub.
  open_world w. run_in Hready. run_in Hpubpath.
  destruct Hready as (Hbits & Hgen & Hpriv & Hpath & Hres & Hpw & Hpay & Hf).
  subst flt. destruct fuel as [|fuel]; [lia|].
  unfold rsa_private_payload in Hpay.
  destruct (not_ filepath) eqn:Hfp; destruct password as [p|]; try subst p;
    destruct (String.length pw =? 0)%nat eqn:Hlen; cbn [negb] in Hpay;
    try (injection Hpay as <-);
    name_run; exec_trip;
    (rewrite lookup_insert_ne by apply path_neq_pub);
    exec_trip; end_run; reflexivity.
Qed.

Lemma rsa_public_round_trip_witness :
  outcome
    (path <~ generate_and_write_rsa_keypair Toy.externals 1 None 3072
               (Some "") ;;
     import_rsa_publickey_from_file Toy.externals (path ++ ".pub"))
    (Toy.world ∅ [])
  = Ret (Toy.public_key "rsa").
Proof.
  apply (rsa_public_round_trip Toy.externals 1 None 3072 (Some "")
           (Toy.world ∅ []) (Toy.key "rsa") "PRIVATE" "" "PRIVATE"
           (Toy.public_key "rsa"));
    first [lia | repeat split; reflexivity].
Defined.

(** ** Key creations that stop before writing *)

Ltac stops_early filepath :=
  match goal with w : World |- _ => open_world w end;
  repeat match goal with
         | H : resolves _ _ _ |- _ => run_in H
         | H : PATH_SCHEMA_check_match _ (effective_path _ _ _) = _ |- _ =>
             run_in H
         | H : stdin _ _ = None |- _ => progress run_in H
         end;
  destruct (not_ filepath) eqn:Hfp;
  subst; name_run; exec_known; end_run; norm_events;
  (split_all; reflexivity).

(** X14: a key creation whose path the path schema refuses ends with the
    error of the schema: no prompt is shown, no primitive is asked to
    encrypt, and nothing is done to the file system. *)
Theorem creation_refuses_invalid_path
    (E : Externals) fuel filepath bits password w e :
  (forall key priv,
      RSAKEYBITS_SCHEMA_check_match E bits = Ok tt ->
      generate_rsa_key E bits = Ok key ->
      private (keyval key) = Some priv ->
      PATH_SCHEMA_check_match E (effective_path w filepath key) = Err e ->
      let w' :=
        final (generate_and_write_rsa_keypair E fuel filepath bits password)
          w in
      outcome (generate_and_write_rsa_keypair E fuel filepath bits password)
        w = Raise e /\
      prompts w w' = [] /\ stdin_pos w' = stdin_pos w /\
      actions w w' = [] /\ files w' = files w /\ dirs w' = dirs w) /\
  (forall key,
      generate_ed25519_key E = Ok key ->
      PATH_SCHEMA_check_match E (effective_path w filepath key) = Err e ->
      let w' :=
        final (generate_and_write_ed25519_keypair E fuel filepath password)
          w in
      outcome (generate_and_write_ed25519_keypair E fuel filepath password)
        w = Raise e /\
      prompts w w' = [] /\ stdin_pos w' = stdin_pos w /\
      actions w w' = [] /\ files w' = files w /\ dirs w' = dirs w) /\
  (forall key,
      generate_ecdsa_key E = Ok key ->
      PATH_SCHEMA_check_match E (effective_path w filepath key) = Err e ->
      let w' :=
        final (generate_and_write_ecdsa_keypair E fuel filepath password)
          w in
      outcome (generate_and_write_ecdsa_keypair E fuel filepath password)
        w = Raise e /\
      prompts w w' = [] /\ stdin_pos w' = stdin_pos w /\
      actions w w' = [] /\ files w' = files w /\ dirs w' = dirs w).
Proof.
  split; [|split].
  - intros key priv Hbits Hgen Hpriv Hpath. stops_early filepath.
  - intros key Hgen Hpath. stops_early filepath.
  - intros key Hgen Hpath. stops_early filepath.
Qed.

Lemma creation_refuses_invalid_path_witness :
  let w := Toy.world ∅ ["typed"] in
  let w' :=
    final (generate_and_write_ecdsa_keypair Toy.strict_externals 1
             (Some "keys/") None) w in
  outcome (generate_and_write_ecdsa_keypair Toy.strict_externals 1
             (Some "keys/") None) w = Raise (FormatError "path") /\
  prompts w w' = [] /\ stdin_pos w' = 0 /\
  actions w w' = [] /\ files w' = ∅ /\ dirs w' = ∅.
Proof.
  intros w.
  destruct (creation_refuses_invalid_path Toy.strict_externals 1
              (Some "keys/") 3072 None w (FormatError "path"))
    as (_ & _ & Hecdsa).
  apply (Hecdsa (Toy.key "ecdsa-sha2-nistp256")); reflexivity.
Defined.

(** X15: a key creation whose password the password schema refuses ends
    with the error of the schema after the prompt, if there was one to show:
    no primitive is asked to encrypt, and nothing is done to the file
    system. *)
Theorem creation_refuses_invalid_password
    (E : Externals) fuel filepath bits password w pw e :
  resolves w password pw ->
  PASSWORD_SCHEMA_check_match E pw = Err e ->
  0 < fuel ->
  (forall key priv,
      RSAKEYBITS_SCHEMA_check_match E bits = Ok tt ->
      generate_rsa_key E bits = Ok key ->
      private (keyval key) = Some priv ->
      PATH_SCHEMA_check_match E (effective_path w filepath key) = Ok tt ->
      let w' :=
        final (generate_and_write_rsa_keypair E fuel filepath bits password)
          w in
      outcome (generate_and_write_rsa_keypair E fuel filepath bits password)
        w = Raise e /\
      actions w w' = [] /\ files w' = files w /\ dirs w' = dirs w) /\
  (forall key,
      generate_ed25519_key E = Ok key ->
      PATH_SCHEMA_check_match E (effective_path w filepath key) = Ok tt ->
      let w' :=
        final (generate_and_write_ed25519_keypair E fuel filepath password)
          w in
      outcome (generate_and_write_ed25519_keypair E fuel filepath password)
        w = Raise e /\
      actions w w' = [] /\ files w' = files w /\ dirs w' = dirs w) /\
  (forall key,
      generate_ecdsa_key E = Ok key ->
      PATH_SCHEMA_check_match E (effective_path w filepath key) = Ok tt ->
      let w' :=
        final (generate_and_write_ecdsa_keypair E fuel filepath password)
          w in
      outcome (generate_and_write_ecdsa_keypair E fuel filepath password)
        w = Raise e /\
      actions w w' = [] /\ files w' = files w /\ dirs w' = dirs w).
Proof.
  intros Hres Hpw Hfuel. destruct fuel as [|fuel]; [lia|].
  split; [|split].
  - intros key priv Hbits Hgen Hpriv Hpath. destruct password; stops_early filepath.
  - intros key Hgen Hpath. destruct password; stops_early filepath.
  - intros key Hgen Hpath. destruct password; stops_early filepath.
Qed.

Lemma creation_refuses_invalid_password_witness :
  let w := Toy.world ∅ ["bad"] in
  let w' :=
    final (generate_and_write_ed25519_keypair Toy.strict_externals 1
             (Some "k") None) w in
  outcome (generate_and_write_ed25519_keypair Toy.strict_externals 1
             (Some "k") None) w = Raise (FormatError "password") /\
  actions w w' = [] /\ files w' = ∅ /\ dirs w' = ∅.
Proof.
  intros w.
  destruct (creation_refuses_invalid_password Toy.strict_externals 1
              (Some "k") 3072 None w "bad" (FormatError "password"))
    as (_ & Hed & _); [reflexivity|reflexivity|lia|].
  apply (Hed (Toy.key "ed25519")); reflexivity.
Defined.

(** X16: a key creation that has to ask for the password on a closed
    terminal ends with [EOFError] once the prompt is shown: the key that was
    generated is dropped, and nothing is done to the file system. *)
Theorem creation_on_closed_terminal
    (E : Externals) fuel filepath bits w :
  stdin w (stdin_pos w) = None ->
  0 < fuel ->
  (forall key priv,
      RSAKEYBITS_SCHEMA_check_match E bits = Ok tt ->
      generate_rsa_key E bits = Ok key ->
      private (keyval key) = Some priv ->
      PATH_SCHEMA_check_match E (effective_path w filepath key) = Ok tt ->
      let w' :=
        final (generate_and_write_rsa_keypair E fuel filepath bits None) w in
      outcome (generate_and_write_rsa_keypair E fuel filepath bits None) w
      = Raise EOFError /\
      prompts w w'
      = [EvGetpass (rsa_creation_prompt (effective_path w filepath key))] /\
      actions w w' = [] /\ files w' = files w /\ dirs w' = dirs w) /\
  (forall key,
      generate_ed25519_key E = Ok key ->
      PATH_SCHEMA_check_match E (effective_path w filepath key) = Ok tt ->
      let w' :=
        final (generate_and_write_ed25519_keypair E fuel filepath None) w in
      outcome (generate_and_write_ed25519_keypair E fuel filepath None) w
      = Raise EOFError /\
      prompts w w'
      = [EvGetpass (ed25519_creation_prompt (effective_path w filepath key))]
      /\
      actions w w' = [] /\ files w' = files w /\ dirs w' = dirs w) /\
  (forall key,
      generate_ecdsa_key E = Ok key ->
      PATH_SCHEMA_check_match E (effective_path w filepath key) = Ok tt ->
      let w' :=
        final (generate_and_write_ecdsa_keypair E fuel filepath None) w in
      outcome (generate_and_write_ecdsa_keypair E fuel filepath None) w
      = Raise EOFError /\
      prompts w w'
      = [EvGetpass (ecdsa_creation_prompt (effective_path w filepath key))] /\
      actions w w' = [] /\ files w' = files w /\ dirs w' = dirs w).
Proof.
  intros Hclosed Hfuel. destruct fuel as [|fuel]; [lia|].
  split; [|split].
  - intros key priv Hbits Hgen Hpriv Hpath. stops_early filepath.
  - intros key Hgen Hpath. stops_early filepath.
  - intros key Hgen Hpath. stops_early filepath.
Qed.

Lemma creation_on_closed_terminal_witness :
  let w := Toy.world ∅ [] in
  let w' :=
    final (generate_and_write_rsa_keypair Toy.externals 1 (Some "k") 3072
             None) w in
  outcome (generate_and_write_rsa_keypair Toy.externals 1 (Some "k") 3072
             None) w = Raise EOFError /\
  prompts w w' = [EvGetpass (rsa_creation_prompt "k")] /\
  actions w w' = [] /\ files w' = ∅ /\ dirs w' = ∅.
Proof.
  intros w.
  destruct (creation_on_closed_terminal Toy.externals 1 (Some "k") 3072 w)
    as (Hrsa & _); [reflexivity|lia|].
  apply (Hrsa (Toy.key "rsa") "PRIVATE"); reflexivity.
Defined.

(** X17: when [create_rsa_encrypted_pem] refuses the private half of an RSA
    key, the call ends with that error and nothing is done to the file
    system: the RSA key is encrypted before the first write, so that not
    even the public half is written. *)
Theorem rsa_encryption_failure_writes_nothing
    (E : Externals) fuel filepath bits password w key priv pw e :
  RSAKEYBITS_SCHEMA_check_match E bits = Ok tt ->
  generate_rsa_key E bits = Ok key ->
  private (keyval key) = Some priv ->
  PATH_SCHEMA_check_match E (effective_path w filepath key) = Ok tt ->
  resolves w password pw ->
  PASSWORD_SCHEMA_check_match E pw = Ok tt ->
  String.length pw <> 0 ->
  create_rsa_encrypted_pem E priv pw = Err e ->
  0 < fuel ->
  let w' :=
    final (generate_and_write_rsa_keypair E fuel filepath bits password) w in
  outcome (generate_and_write_rsa_keypair E fuel filepath bits password) w
  = Raise e /\
  actions w w' = [EvCreateRsaEncryptedPem priv pw] /\
  files w' = files w /\ dirs w' = dirs w /\ temps w' = temps w.
Proof.
  intros Hbits Hgen Hpriv Hpath Hres Hpw Hlen Henc Hfuel.
  apply Nat.eqb_neq in Hlen. destruct fuel as [|fuel]; [lia|].
  destruct password; stops_early filepath.
Qed.

Lemma rsa_encryption_failure_writes_nothing_witness :
  let w := Toy.world ∅ [] in
  let w' :=
    final (generate_and_write_rsa_keypair Toy.strict_externals 1 (Some "k")
             3072 (Some "pw")) w in
  outcome (generate_and_write_rsa_keypair Toy.strict_externals 1 (Some "k")
             3072 (Some "pw")) w = Raise (CryptoError "cannot encrypt") /\
  actions w w' = [EvCreateRsaEncryptedPem "PRIVATE" "pw"] /\
  files w' = ∅ /\ dirs w' = ∅ /\ temps w' = ∅.
Proof.
  intros w.
  apply (rsa_encryption_failure_writes_nothing Toy.strict_externals 1
           (Some "k") 3072 (Some "pw") w (Toy.key "rsa") "PRIVATE" "pw"
           (CryptoError "cannot encrypt"));
    first [reflexivity | lia | discriminate].
Defined.


(** ** The prompt without confirmation *)

(** X18: without confirmation [_get_password] goes through its loop once,
    whatever is typed: it shows the prompt, reads one line and returns it,
    or raises [EOFError] on a closed terminal; no second prompt and no retry
    notice are shown, and the lines that follow are left unread. *)
Theorem get_password_without_confirmation (prompt : string) fuel w :
  0 < fuel ->
  let w' := final (_get_password fuel prompt false) w in
  outcome (_get_password fuel prompt false) w
  = match stdin w (stdin_pos w) with
    | Some line => Ret line
    | None => Raise EOFError
    end /\
  new_events w w' = [EvGetpass prompt] /\
  stdin_pos w'
  = match stdin w (stdin_pos w) with
    | Some _ => S (stdin_pos w)
    | None => stdin_pos w
    end.
Proof.
  intros Hfuel. destruct fuel as [|fuel]; [lia|].
  cbv zeta. unfold outcome, final, new_events.
  destruct (stdin w (stdin_pos w)) as [line|] eqn:Hline.
  - rewrite (get_password_no_confirm prompt fuel w line Hline).
    cbn. rewrite drop_app_length. repeat split.
  - rewrite (get_password_no_confirm_eof prompt fuel w Hline).
    cbn. rewrite drop_app_length. repeat split.
Qed.

Lemma get_password_without_confirmation_witness :
  outcome (_get_password 3 "Password: " false)
    (Toy.world ∅ ["first"; "second"]) = Ret "first" /\
  stdin_pos (final (_get_password 3 "Password: " false)
               (Toy.world ∅ ["first"; "second"])) = 1.
Proof.
  destruct (get_password_without_confirmation "Password: " 3
              (Toy.world ∅ ["first"; "second"])) as (Ho & _ & Hpos); [lia|].
  split; [exact Ho|exact Hpos].
Defined.

(** ** Errors of the primitives *)

(** X19: an error of the decryption or of the PEM import comes out of a
    private-key import as it is: a wrong password is reported as the
    primitive reports it, not as a format error of the import. *)
Theorem private_import_propagates_errors
    (E : Externals) fuel filepath password sch w pw contents text e :
  import_ready E w filepath password pw contents text ->
  0 < fuel ->
  (decrypt_key E text pw = Err e ->
   outcome (import_ed25519_privatekey_from_file E fuel filepath password) w
   = Raise e /\
   outcome (import_ecdsa_privatekey_from_file E fuel filepath password) w
   = Raise e) /\
  (RSA_SCHEME_SCHEMA_check_match E sch = Ok tt ->
   import_rsakey_from_private_pem E text sch (rsa_import_password pw)
   = Err e ->
   outcome (import_rsa_privatekey_from_file E fuel filepath password sch) w
   = Raise e).
Proof.
  intros Hready Hfuel. split.
  - intros Herr. split.
    + pose proof (ed25519_import_run E fuel filepath password w pw contents
                    text Hready Hfuel) as H.
      cbv zeta in H. destruct H as (Ho & _). rewrite Ho, Herr. reflexivity.
    + pose proof (ecdsa_import_run E fuel filepath password w pw contents
                    text Hready Hfuel) as H.
      cbv zeta in H. destruct H as (Ho & _). rewrite Ho, Herr. reflexivity.
  - intros Hsch Herr.
    pose proof (rsa_import_run E fuel filepath password sch w pw contents
                  text Hready Hfuel Hsch) as H.
    cbv zeta in H. destruct H as (Ho & _). rewrite Ho, Herr. reflexivity.
Qed.

Lemma private_import_propagates_errors_witness :
  outcome (import_ed25519_privatekey_from_file Toy.externals 1 "k"
             (Some "other")) (Toy.world {["k" := "enc<pw>ed25519"]} [])
  = Raise (CryptoError "Decryption failed.").
Proof.
  destruct (private_import_propagates_errors Toy.externals 1 "k"
              (Some "other") "rsassa-pss-sha256"
              (Toy.world {["k" := "enc<pw>ed25519"]} []) "other"
              "enc<pw>ed25519" "enc<pw>ed25519"
              (CryptoError "Decryption failed.")) as [Hdec _].
  - repeat split; reflexivity.
  - lia.
  - destruct Hdec as [Hed _]; [reflexivity|exact Hed].
Defined.
